(** * bimg: the resize planner of [resize.go] and the adapter of [vips.go]

    A shallow embedding of the geometry calculator, the orientation
    resolver and the operation planner ([Resize]), over an abstract
    raster engine (libvips, reached through cgo in the source). *)

From Stdlib Require Import ZArith Bool List Lia.
From Stdlib Require Import Strings.String Strings.Byte.
From Stdlib Require Import Floats.SpecFloat.
Import ListNotations.
Local Open Scope string_scope.
Local Open Scope Z_scope.

(** ** Go's numeric types

    [int] is the 64-bit two's-complement integer of 64-bit targets, kept
    as a [Z] with its wrap-around written out.  [float64] is IEEE-754
    binary64, kept as a [spec_float] at precision 53 and [emax] 1024. *)
Module Go.

Definition int := Z.

Definition int_min : Z := - 2 ^ 63.
Definition int_max : Z := 2 ^ 63 - 1.

Definition in_int (z : Z) : bool := (int_min <=? z) && (z <=? int_max).

Definition wrap (z : Z) : int := (z + 2 ^ 63) mod 2 ^ 64 - 2 ^ 63.

Definition add (a b : int) : int := wrap (a + b).
Definition sub (a b : int) : int := wrap (a - b).
(** [/] truncates toward zero, [%] takes the sign of the dividend. *)
Definition div (a b : int) : int := wrap (Z.quot a b).
Definition rem (a b : int) : int := Z.rem a b.

Definition float64 := spec_float.

Definition prec : Z := 53.
Definition emax : Z := 1024.

Definition fdiv : float64 -> float64 -> float64 := SFdiv prec emax.
Definition fmul : float64 -> float64 -> float64 := SFmul prec emax.
Definition feq : float64 -> float64 -> bool := SFeqb.
Definition flt : float64 -> float64 -> bool := SFltb.
Definition fle : float64 -> float64 -> bool := SFleb.

(** The conversion [float64(n)] of an integer: round to nearest even. *)
Definition of_int (n : Z) : float64 := binary_normalize prec emax n 0 false.

Definition IsNaN (x : float64) : bool :=
  match x with S754_nan => true | _ => false end.

(** [IsInf x sign]: [sign > 0] asks for +Inf, [sign < 0] for -Inf. *)
Definition IsInf (x : float64) (sign : Z) : bool :=
  match x with
  | S754_infinity s => if s then sign <=? 0 else 0 <=? sign
  | _ => false
  end.

Definition Signbit (x : float64) : bool :=
  match x with
  | S754_zero s | S754_infinity s | S754_finite s _ _ => s
  | S754_nan => false
  end.

Definition fzero : float64 := S754_zero false.

(** [math.Max] and [math.Min] with their special cases. *)
Definition math_Max (x y : float64) : float64 :=
  if IsInf x 1 || IsInf y 1 then S754_infinity false
  else if IsNaN x || IsNaN y then S754_nan
  else if feq x fzero && feq x y then (if Signbit x then y else x)
  else if flt y x then x else y.

Definition math_Min (x y : float64) : float64 :=
  if IsInf x (-1) || IsInf y (-1) then S754_infinity true
  else if IsNaN x || IsNaN y then S754_nan
  else if feq x fzero && feq x y then (if Signbit x then x else y)
  else if flt x y then x else y.

(** [math.Floor]: the greatest integral value not above [x]; zeros,
    infinities and NaN are returned as they are. *)
Definition math_Floor (x : float64) : float64 :=
  match x with
  | S754_finite s m e =>
      if 0 <=? e then x
      else
        let q := Z.shiftr (Zpos m) (- e) in
        if s then
          binary_normalize prec emax
            (- (if Z.shiftl q (- e) =? Zpos m then q else q + 1)) 0 true
        else binary_normalize prec emax q 0 false
  | _ => x
  end.

(** The integral part of a finite value (the fraction is discarded);
    nothing for infinities and NaN. *)
Definition trunc (x : float64) : option Z :=
  match x with
  | S754_zero _ => Some 0
  | S754_finite s m e =>
      Some (cond_Zopp s
              (if 0 <=? e then Z.shiftl (Zpos m) e
               else Z.shiftr (Zpos m) (- e)))
  | _ => None
  end.

(** What the target does with a conversion [int(x)] whose value does
    not fit: Go leaves that result to the implementation. *)
Class Target := { unrepresentable : float64 -> int }.

(** The conversion [int(x)]. *)
Definition to_int {T : Target} (x : float64) : int :=
  match trunc x with
  | Some z => if in_int z then z else unrepresentable x
  | None => unrepresentable x
  end.

(** amd64: the "integer indefinite" value of CVTTSD2SQ. *)
Definition amd64 : Target := {| unrepresentable := fun _ => int_min |}.

End Go.

Import Go.

(** ** Results of Go calls

    A call returns a value ([Ok]), returns a non-nil [error] ([Err], the
    value beside it being nil), or stops in a run-time panic ([Panic]:
    an index out of range, a nil pointer dereference). *)
Inductive result (A : Type) : Type :=
| Ok (a : A)
| Err (msg : string)
| Panic.
Arguments Ok {A} a.
Arguments Err {A} msg.
Arguments Panic {A}.

Definition bind {A B : Type} (r : result A) (k : A -> result B) : result B :=
  match r with
  | Ok a => k a
  | Err msg => Err msg
  | Panic => Panic
  end.

Declare Scope go_scope.
Delimit Scope go_scope with go.
Notation "x <- r ;; k" := (bind r (fun x => k))
  (at level 61, r at next level, right associativity) : go_scope.
Notation "' p <- r ;; k" := (bind r (fun p => k))
  (at level 61, p pattern, r at next level, right associativity) : go_scope.
Local Open Scope go_scope.

(** Short-circuit [&&] and [||] over operands that may panic. *)
Definition andM (a b : result bool) : result bool :=
  x <- a ;; if x then b else Ok false.
Definition orM (a b : result bool) : result bool :=
  x <- a ;; if x then Ok true else b.
Infix "&&&" := andM (at level 40, left associativity) : go_scope.
Infix "|||" := orM (at level 50, left associativity) : go_scope.

(** ** Data model *)

(** Modelled from the spec: the enumerations and the [Options] struct are
    declared in other files of the package (type.go, options.go); they
    are given the fields and constants that resize.go and vips.go
    read. *)
Inductive ImageType : Type := UNKNOWN | JPEG | WEBP | PNG | TIFF | MAGICK.

Definition ImageType_eqb (a b : ImageType) : bool :=
  match a, b with
  | UNKNOWN, UNKNOWN | JPEG, JPEG | WEBP, WEBP
  | PNG, PNG | TIFF, TIFF | MAGICK, MAGICK => true
  | _, _ => false
  end.

(** Modelled from the spec: the crop anchor, one of centre, north, east,
    south and west. *)
Inductive Gravity : Type := CENTRE | NORTH | EAST | SOUTH | WEST.

(** Modelled from the spec: the axis of a flip. *)
Inductive Direction : Type := HORIZONTAL | VERTICAL.

(** Modelled from the spec: an angle is an integer number of degrees. *)
Definition Angle := int.
Definition D0 : Angle := 0.
Definition D90 : Angle := 90.
Definition D180 : Angle := 180.
Definition D270 : Angle := 270.

(** Modelled from the spec: a resampling kernel is an integer code with a
    name; the colour interpretation is the engine's integer code. *)
Definition Interpolator := int.
Definition Interpretation := int.

Record Color : Type := { R : Z; G : Z; B : Z }.

Record Watermark : Type := {
  wWidth : int;
  wDPI : int;
  wMargin : int;
  wOpacity : float64;
  wNoReplicate : bool;
  wText : string;
  wFont : string;
  wBackground : Color
}.

Record GaussianBlur : Type := { Sigma : float64; MinAmpl : float64 }.

Record Options : Type := {
  Height : int;
  Width : int;
  AreaHeight : int;
  AreaWidth : int;
  Top : int;
  Left : int;
  Extend : int;
  Quality : int;
  Compression : int;
  Zoom : int;
  Crop : bool;
  Enlarge : bool;
  Embed : bool;
  Flip : bool;
  Flop : bool;
  Force : bool;
  NoAutoRotate : bool;
  NoProfile : bool;
  Interlace : bool;
  Rotate : Angle;
  Gravity_ : Gravity;
  Watermark_ : Watermark;
  Type_ : ImageType;
  Interpolator_ : Interpolator;
  Interpretation_ : Interpretation;
  GaussianBlur_ : GaussianBlur
}.

(** Assignments to one field of a struct. *)
Definition set_Height (v : int) (o : Options) : Options :=
  {| Height := v; Width := Width o; AreaHeight := AreaHeight o;
     AreaWidth := AreaWidth o; Top := Top o; Left := Left o;
     Extend := Extend o; Quality := Quality o;
     Compression := Compression o; Zoom := Zoom o; Crop := Crop o;
     Enlarge := Enlarge o; Embed := Embed o; Flip := Flip o;
     Flop := Flop o; Force := Force o; NoAutoRotate := NoAutoRotate o;
     NoProfile := NoProfile o; Interlace := Interlace o;
     Rotate := Rotate o; Gravity_ := Gravity_ o;
     Watermark_ := Watermark_ o; Type_ := Type_ o;
     Interpolator_ := Interpolator_ o;
     Interpretation_ := Interpretation_ o;
     GaussianBlur_ := GaussianBlur_ o |}.
Definition set_Width (v : int) (o : Options) : Options :=
  {| Height := Height o; Width := v; AreaHeight := AreaHeight o;
     AreaWidth := AreaWidth o; Top := Top o; Left := Left o;
     Extend := Extend o; Quality := Quality o;
     Compression := Compression o; Zoom := Zoom o; Crop := Crop o;
     Enlarge := Enlarge o; Embed := Embed o; Flip := Flip o;
     Flop := Flop o; Force := Force o; NoAutoRotate := NoAutoRotate o;
     NoProfile := NoProfile o; Interlace := Interlace o;
     Rotate := Rotate o; Gravity_ := Gravity_ o;
     Watermark_ := Watermark_ o; Type_ := Type_ o;
     Interpolator_ := Interpolator_ o;
     Interpretation_ := Interpretation_ o;
     GaussianBlur_ := GaussianBlur_ o |}.
Definition set_AreaHeight (v : int) (o : Options) : Options :=
  {| Height := Height o; Width := Width o; AreaHeight := v;
     AreaWidth := AreaWidth o; Top := Top o; Left := Left o;
     Extend := Extend o; Quality := Quality o;
     Compression := Compression o; Zoom := Zoom o; Crop := Crop o;
     Enlarge := Enlarge o; Embed := Embed o; Flip := Flip o;
     Flop := Flop o; Force := Force o; NoAutoRotate := NoAutoRotate o;
     NoProfile := NoProfile o; Interlace := Interlace o;
     Rotate := Rotate o; Gravity_ := Gravity_ o;
     Watermark_ := Watermark_ o; Type_ := Type_ o;
     Interpolator_ := Interpolator_ o;
     Interpretation_ := Interpretation_ o;
     GaussianBlur_ := GaussianBlur_ o |}.
Definition set_Quality (v : int) (o : Options) : Options :=
  {| Height := Height o; Width := Width o; AreaHeight := AreaHeight o;
     AreaWidth := AreaWidth o; Top := Top o; Left := Left o;
     Extend := Extend o; Quality := v; Compression := Compression o;
     Zoom := Zoom o; Crop := Crop o; Enlarge := Enlarge o;
     Embed := Embed o; Flip := Flip o; Flop := Flop o; Force := Force o;
     NoAutoRotate := NoAutoRotate o; NoProfile := NoProfile o;
     Interlace := Interlace o; Rotate := Rotate o; Gravity_ := Gravity_ o;
     Watermark_ := Watermark_ o; Type_ := Type_ o;
     Interpolator_ := Interpolator_ o;
     Interpretation_ := Interpretation_ o;
     GaussianBlur_ := GaussianBlur_ o |}.
Definition set_Compression (v : int) (o : Options) : Options :=
  {| Height := Height o; Width := Width o; AreaHeight := AreaHeight o;
     AreaWidth := AreaWidth o; Top := Top o; Left := Left o;
     Extend := Extend o; Quality := Quality o; Compression := v;
     Zoom := Zoom o; Crop := Crop o; Enlarge := Enlarge o;
     Embed := Embed o; Flip := Flip o; Flop := Flop o; Force := Force o;
     NoAutoRotate := NoAutoRotate o; NoProfile := NoProfile o;
     Interlace := Interlace o; Rotate := Rotate o; Gravity_ := Gravity_ o;
     Watermark_ := Watermark_ o; Type_ := Type_ o;
     Interpolator_ := Interpolator_ o;
     Interpretation_ := Interpretation_ o;
     GaussianBlur_ := GaussianBlur_ o |}.
Definition set_Type_ (v : ImageType) (o : Options) : Options :=
  {| Height := Height o; Width := Width o; AreaHeight := AreaHeight o;
     AreaWidth := AreaWidth o; Top := Top o; Left := Left o;
     Extend := Extend o; Quality := Quality o;
     Compression := Compression o; Zoom := Zoom o; Crop := Crop o;
     Enlarge := Enlarge o; Embed := Embed o; Flip := Flip o;
     Flop := Flop o; Force := Force o; NoAutoRotate := NoAutoRotate o;
     NoProfile := NoProfile o; Interlace := Interlace o;
     Rotate := Rotate o; Gravity_ := Gravity_ o;
     Watermark_ := Watermark_ o; Type_ := v;
     Interpolator_ := Interpolator_ o;
     Interpretation_ := Interpretation_ o;
     GaussianBlur_ := GaussianBlur_ o |}.
Definition set_Interpretation_ (v : Interpretation) (o : Options) : Options :=
  {| Height := Height o; Width := Width o; AreaHeight := AreaHeight o;
     AreaWidth := AreaWidth o; Top := Top o; Left := Left o;
     Extend := Extend o; Quality := Quality o;
     Compression := Compression o; Zoom := Zoom o; Crop := Crop o;
     Enlarge := Enlarge o; Embed := Embed o; Flip := Flip o;
     Flop := Flop o; Force := Force o; NoAutoRotate := NoAutoRotate o;
     NoProfile := NoProfile o; Interlace := Interlace o;
     Rotate := Rotate o; Gravity_ := Gravity_ o;
     Watermark_ := Watermark_ o; Type_ := Type_ o;
     Interpolator_ := Interpolator_ o; Interpretation_ := v;
     GaussianBlur_ := GaussianBlur_ o |}.
Definition set_Crop (v : bool) (o : Options) : Options :=
  {| Height := Height o; Width := Width o; AreaHeight := AreaHeight o;
     AreaWidth := AreaWidth o; Top := Top o; Left := Left o;
     Extend := Extend o; Quality := Quality o;
     Compression := Compression o; Zoom := Zoom o; Crop := v;
     Enlarge := Enlarge o; Embed := Embed o; Flip := Flip o;
     Flop := Flop o; Force := Force o; NoAutoRotate := NoAutoRotate o;
     NoProfile := NoProfile o; Interlace := Interlace o;
     Rotate := Rotate o; Gravity_ := Gravity_ o;
     Watermark_ := Watermark_ o; Type_ := Type_ o;
     Interpolator_ := Interpolator_ o;
     Interpretation_ := Interpretation_ o;
     GaussianBlur_ := GaussianBlur_ o |}.
Definition set_Embed (v : bool) (o : Options) : Options :=
  {| Height := Height o; Width := Width o; AreaHeight := AreaHeight o;
     AreaWidth := AreaWidth o; Top := Top o; Left := Left o;
     Extend := Extend o; Quality := Quality o;
     Compression := Compression o; Zoom := Zoom o; Crop := Crop o;
     Enlarge := Enlarge o; Embed := v; Flip := Flip o; Flop := Flop o;
     Force := Force o; NoAutoRotate := NoAutoRotate o;
     NoProfile := NoProfile o; Interlace := Interlace o;
     Rotate := Rotate o; Gravity_ := Gravity_ o;
     Watermark_ := Watermark_ o; Type_ := Type_ o;
     Interpolator_ := Interpolator_ o;
     Interpretation_ := Interpretation_ o;
     GaussianBlur_ := GaussianBlur_ o |}.
Definition set_Flip (v : bool) (o : Options) : Options :=
  {| Height := Height o; Width := Width o; AreaHeight := AreaHeight o;
     AreaWidth := AreaWidth o; Top := Top o; Left := Left o;
     Extend := Extend o; Quality := Quality o;
     Compression := Compression o; Zoom := Zoom o; Crop := Crop o;
     Enlarge := Enlarge o; Embed := Embed o; Flip := v; Flop := Flop o;
     Force := Force o; NoAutoRotate := NoAutoRotate o;
     NoProfile := NoProfile o; Interlace := Interlace o;
     Rotate := Rotate o; Gravity_ := Gravity_ o;
     Watermark_ := Watermark_ o; Type_ := Type_ o;
     Interpolator_ := Interpolator_ o;
     Interpretation_ := Interpretation_ o;
     GaussianBlur_ := GaussianBlur_ o |}.
Definition set_Force (v : bool) (o : Options) : Options :=
  {| Height := Height o; Width := Width o; AreaHeight := AreaHeight o;
     AreaWidth := AreaWidth o; Top := Top o; Left := Left o;
     Extend := Extend o; Quality := Quality o;
     Compression := Compression o; Zoom := Zoom o; Crop := Crop o;
     Enlarge := Enlarge o; Embed := Embed o; Flip := Flip o;
     Flop := Flop o; Force := v; NoAutoRotate := NoAutoRotate o;
     NoProfile := NoProfile o; Interlace := Interlace o;
     Rotate := Rotate o; Gravity_ := Gravity_ o;
     Watermark_ := Watermark_ o; Type_ := Type_ o;
     Interpolator_ := Interpolator_ o;
     Interpretation_ := Interpretation_ o;
     GaussianBlur_ := GaussianBlur_ o |}.
Definition set_Rotate (v : Angle) (o : Options) : Options :=
  {| Height := Height o; Width := Width o; AreaHeight := AreaHeight o;
     AreaWidth := AreaWidth o; Top := Top o; Left := Left o;
     Extend := Extend o; Quality := Quality o;
     Compression := Compression o; Zoom := Zoom o; Crop := Crop o;
     Enlarge := Enlarge o; Embed := Embed o; Flip := Flip o;
     Flop := Flop o; Force := Force o; NoAutoRotate := NoAutoRotate o;
     NoProfile := NoProfile o; Interlace := Interlace o; Rotate := v;
     Gravity_ := Gravity_ o; Watermark_ := Watermark_ o; Type_ := Type_ o;
     Interpolator_ := Interpolator_ o;
     Interpretation_ := Interpretation_ o;
     GaussianBlur_ := GaussianBlur_ o |}.
Definition set_wWidth (v : int) (w : Watermark) : Watermark :=
  {| wWidth := v; wDPI := wDPI w; wMargin := wMargin w;
     wOpacity := wOpacity w; wNoReplicate := wNoReplicate w;
     wText := wText w; wFont := wFont w; wBackground := wBackground w |}.
Definition set_wDPI (v : int) (w : Watermark) : Watermark :=
  {| wWidth := wWidth w; wDPI := v; wMargin := wMargin w;
     wOpacity := wOpacity w; wNoReplicate := wNoReplicate w;
     wText := wText w; wFont := wFont w; wBackground := wBackground w |}.
Definition set_wMargin (v : int) (w : Watermark) : Watermark :=
  {| wWidth := wWidth w; wDPI := wDPI w; wMargin := v;
     wOpacity := wOpacity w; wNoReplicate := wNoReplicate w;
     wText := wText w; wFont := wFont w; wBackground := wBackground w |}.
Definition set_wOpacity (v : float64) (w : Watermark) : Watermark :=
  {| wWidth := wWidth w; wDPI := wDPI w; wMargin := wMargin w;
     wOpacity := v; wNoReplicate := wNoReplicate w; wText := wText w;
     wFont := wFont w; wBackground := wBackground w |}.
Definition set_wFont (v : string) (w : Watermark) : Watermark :=
  {| wWidth := wWidth w; wDPI := wDPI w; wMargin := wMargin w;
     wOpacity := wOpacity w; wNoReplicate := wNoReplicate w;
     wText := wText w; wFont := v; wBackground := wBackground w |}.

(** ** The raster engine

    libvips is reached through cgo.  A C entry point hands back a status
    and an out-parameter: [Done out] for status 0, [Failed diag] for
    any other status, [diag] being the text that [catchVipsError] then
    reads from the engine's error buffer. *)
Inductive cgo (A : Type) : Type :=
| Done (out : A)
| Failed (diag : string).
Arguments Done {A} out.
Arguments Failed {A} diag.

(** [if err != 0 { return nil, catchVipsError() }; return out, nil] *)
Definition catch {A : Type} (c : cgo A) : result A :=
  match c with
  | Done out => Ok out
  | Failed diag => Err diag
  end.

(** The conversion [C.int(n)] of a Go [int]: the low 32 bits, signed. *)
Definition C_int (n : int) : Z := (n + 2 ^ 31) mod 2 ^ 32 - 2 ^ 31.

Record vipsSaveOptions : Type := {
  sQuality : int;
  sCompression : int;
  sType : ImageType;
  sInterlace : bool;
  sNoProfile : bool;
  sInterpretation : Interpretation
}.

(** The engine's entry points (vips.h) and the package constants that
    are declared in other files of the package.  A [*C.VipsImage] is an
    [option VipsImage], [None] being nil. *)
Class Vips : Type := {
  VipsImage : Type;
  Xsize : VipsImage -> Z;
  Ysize : VipsImage -> Z;
  QUALITY : int;
  MAX_SIZE : int;
  INTERPRETATION_sRGB : Interpretation;
  WATERMARK_FONT : string;
  HasMagickSupport : bool;
  IsTypeSupported : ImageType -> bool;
  Interpolator_String : Interpolator -> string;
  interpolator_window_size : string -> Z;
  vips_exif_orientation : option VipsImage -> Z;
  vips_foreign_find_load_buffer : list byte -> string;
  vips_init_image : list byte -> ImageType -> cgo (option VipsImage);
  vips_jpegload_buffer_shrink : list byte -> Z -> cgo (option VipsImage);
  vips_rotate : option VipsImage -> Z -> cgo (option VipsImage);
  vips_flip_bridge : option VipsImage -> Direction -> cgo (option VipsImage);
  vips_zoom_bridge : option VipsImage -> Z -> Z -> cgo (option VipsImage);
  vips_shrink_bridge :
    option VipsImage -> float64 -> float64 -> cgo (option VipsImage);
  vips_affine_interpolator :
    option VipsImage -> float64 -> float64 -> string ->
    cgo (option VipsImage);
  vips_extract_area_bridge :
    option VipsImage -> Z -> Z -> Z -> Z -> cgo (option VipsImage);
  vips_embed_bridge :
    option VipsImage -> Z -> Z -> Z -> Z -> Z -> cgo (option VipsImage);
  vips_gaussblur_bridge :
    option VipsImage -> float64 -> float64 -> cgo (option VipsImage);
  vips_watermark : option VipsImage -> Watermark -> cgo (option VipsImage);
  remove_profile : option VipsImage -> option VipsImage;
  vips_colourspace_issupported_bridge : option VipsImage -> Z;
  vips_colourspace_bridge :
    option VipsImage -> Interpretation -> cgo (option VipsImage);
  vips_webpsave_bridge : option VipsImage -> Z -> cgo (list byte);
  vips_pngsave_bridge : option VipsImage -> Z -> Z -> Z -> cgo (list byte);
  vips_jpegsave_bridge : option VipsImage -> Z -> Z -> cgo (list byte)
}.

(** [strings.HasSuffix] *)
Definition HasSuffix (s suffix : string) : bool :=
  (String.length suffix <=? String.length s)%nat
  && String.eqb
       (substring (String.length s - String.length suffix)
          (String.length suffix) s)
       suffix.

(** [bytes[i]]: a panic when [i] is out of range. *)
Definition index (bytes : list byte) (i : nat) : result byte :=
  match nth_error bytes i with
  | Some b => Ok b
  | None => Panic
  end.

(** [bytes[i] == c] *)
Definition byte_is (bytes : list byte) (i : nat) (c : byte) : result bool :=
  b <- index bytes i ;; Ok (Byte.eqb b c).

Section Bimg.

Context {T : Target} {V : Vips}.

(** *** vips.go *)

Definition vipsExifOrientation (image : option VipsImage) : int :=
  vips_exif_orientation image.

Definition vipsWindowSize (name : string) : float64 :=
  of_int (interpolator_window_size name).

(** [readImageType]: [&buf[0]] panics on an empty buffer. *)
Definition readImageType (buf : list byte) : result string :=
  _ <- index buf 0 ;; Ok (vips_foreign_find_load_buffer buf).

Definition vipsImageType (bytes : list byte) : result ImageType :=
  if (List.length bytes =? 0)%nat then Ok UNKNOWN
  else
    png <- byte_is bytes 0 x89 &&& byte_is bytes 1 x50
           &&& byte_is bytes 2 x4e &&& byte_is bytes 3 x47 ;;
    if png then Ok PNG
    else
      jpeg <- byte_is bytes 0 xff &&& byte_is bytes 1 xd8
              &&& byte_is bytes 2 xff ;;
      if jpeg then Ok JPEG
      else
        webp <- byte_is bytes 8 x57 &&& byte_is bytes 9 x45
                &&& byte_is bytes 10 x42 &&& byte_is bytes 11 x50 ;;
        if webp then Ok WEBP
        else
          tiff <- (byte_is bytes 0 x49 &&& byte_is bytes 1 x49
                   &&& byte_is bytes 2 x2a &&& byte_is bytes 3 x00)
                  ||| (byte_is bytes 0 x4d &&& byte_is bytes 1 x4d
                       &&& byte_is bytes 2 x00 &&& byte_is bytes 3 x2a) ;;
          if tiff then Ok TIFF
          else
            magick <- (if HasMagickSupport
                       then name <- readImageType bytes ;;
                            Ok (HasSuffix name "MagickBuffer")
                       else Ok false) ;;
            if magick then Ok MAGICK else Ok UNKNOWN.

Definition vipsRead (buf : list byte)
  : result (option VipsImage * ImageType) :=
  imageType <- vipsImageType buf ;;
  if ImageType_eqb imageType UNKNOWN then Err "Unsupported image format"
  else
    _ <- index buf 0 ;;
    image <- catch (vips_init_image buf imageType) ;;
    Ok (image, imageType).

Definition boolToInt (b : bool) : int := if b then 1 else 0.

Definition vipsColourspaceIsSupported (image : option VipsImage) : bool :=
  vips_colourspace_issupported_bridge image =? 1.

Definition vipsRotate (image : option VipsImage) (angle : Angle)
  : result (option VipsImage) :=
  catch (vips_rotate image (C_int angle)).

Definition vipsFlip (image : option VipsImage) (direction : Direction)
  : result (option VipsImage) :=
  catch (vips_flip_bridge image direction).

Definition vipsZoom (image : option VipsImage) (zoom : int)
  : result (option VipsImage) :=
  catch (vips_zoom_bridge image (C_int zoom) (C_int zoom)).

Definition vipsWatermark (image : option VipsImage) (w : Watermark)
  : result (option VipsImage) :=
  catch (vips_watermark image w).

Definition vipsPreSave (image : option VipsImage) (o : vipsSaveOptions)
  : result (option VipsImage) :=
  let image := if sNoProfile o then remove_profile image else image in
  let interpretation :=
    if sInterpretation o =? 0 then INTERPRETATION_sRGB
    else sInterpretation o in
  if vipsColourspaceIsSupported image
  then catch (vips_colourspace_bridge image interpretation)
  else Ok image.

Definition vipsSave (image : option VipsImage) (o : vipsSaveOptions)
  : result (list byte) :=
  image <- vipsPreSave image o ;;
  let interlace := C_int (boolToInt (sInterlace o)) in
  let quality := C_int (sQuality o) in
  match sType o with
  | WEBP => catch (vips_webpsave_bridge image quality)
  | PNG =>
      catch (vips_pngsave_bridge image (C_int (sCompression o)) quality
               interlace)
  | _ => catch (vips_jpegsave_bridge image quality interlace)
  end.

Definition vipsExtract (image : option VipsImage)
  (left top width height : int) : result (option VipsImage) :=
  if (MAX_SIZE <? width) || (MAX_SIZE <? height)
  then Err "Maximum image size exceeded"
  else
    catch (vips_extract_area_bridge image (C_int left) (C_int top)
             (C_int width) (C_int height)).

Definition vipsShrinkJpeg (buf : list byte) (input : option VipsImage)
  (shrink : int) : result (option VipsImage) :=
  _ <- index buf 0 ;;
  catch (vips_jpegload_buffer_shrink buf (C_int shrink)).

Definition vipsShrink (input : option VipsImage) (shrink : int)
  : result (option VipsImage) :=
  catch (vips_shrink_bridge input (of_int shrink) (of_int shrink)).

Definition vipsEmbed (input : option VipsImage)
  (left top width height extend : int) : result (option VipsImage) :=
  catch (vips_embed_bridge input (C_int left) (C_int top) (C_int width)
           (C_int height) (C_int extend)).

Definition vipsAffine (input : option VipsImage)
  (residualx residualy : float64) (i : Interpolator)
  : result (option VipsImage) :=
  catch (vips_affine_interpolator input residualx residualy
           (Interpolator_String i)).

Definition vipsGaussianBlur (image : option VipsImage) (o : GaussianBlur)
  : result (option VipsImage) :=
  catch (vips_gaussblur_bridge image (Sigma o) (MinAmpl o)).

(** [image.Xsize], [image.Ysize]: a panic on a nil image. *)
Definition image_Xsize (image : option VipsImage) : result int :=
  match image with Some i => Ok (Xsize i) | None => Panic end.
Definition image_Ysize (image : option VipsImage) : result int :=
  match image with Some i => Ok (Ysize i) | None => Panic end.

(** *** resize.go: the geometry calculator *)

Definition applyDefaults (o : Options) (imageType : ImageType) : Options :=
  let o := if Quality o =? 0 then set_Quality QUALITY o else o in
  let o := if Compression o =? 0 then set_Compression 6 o else o in
  let o := if ImageType_eqb (Type_ o) UNKNOWN
           then set_Type_ imageType o else o in
  if Interpretation_ o =? 0
  then set_Interpretation_ INTERPRETATION_sRGB o else o.

Definition normalizeOperation (o : Options) (inWidth inHeight : int)
  : Options :=
  if negb (Force o) && negb (Crop o) && negb (Embed o) && negb (Enlarge o)
     && (Rotate o =? 0) && ((0 <? Width o) || (0 <? Height o))
  then set_Force true o
  else o.

Definition shouldTransformImage (o : Options) (inWidth inHeight : int)
  : bool :=
  Force o
  || ((0 <? Width o) && negb (Width o =? inWidth))
  || ((0 <? Height o) && negb (Height o =? inHeight))
  || (0 <? AreaWidth o) || (0 <? AreaHeight o).

Definition shouldApplyEffects (o : Options) : bool :=
  flt fzero (Sigma (GaussianBlur_ o)) || flt fzero (MinAmpl (GaussianBlur_ o)).

(** [imageCalculations] writes through its [*Options]: the options
    come back with the factor. *)
Definition imageCalculations (o : Options) (inWidth inHeight : int)
  : Options * float64 :=
  let xfactor := fdiv (of_int inWidth) (of_int (Width o)) in
  let yfactor := fdiv (of_int inHeight) (of_int (Height o)) in
  if (0 <? Width o) && (0 <? Height o) then
    (o, if Crop o then math_Min xfactor yfactor
        else math_Max xfactor yfactor)
  else if 0 <? Width o then
    (set_Height (to_int (math_Floor (fdiv (of_int inHeight) xfactor))) o,
     xfactor)
  else if 0 <? Height o then
    (set_Width (to_int (math_Floor (fdiv (of_int inWidth) yfactor))) o,
     yfactor)
  else
    (set_Height inHeight (set_Width inWidth o), of_int 1).

Definition calculateCrop (inWidth inHeight outWidth outHeight : int)
  (gravity : Gravity) : int * int :=
  match gravity with
  | NORTH => (div (add (sub inWidth outWidth) 1) 2, 0)
  | EAST => (sub inWidth outWidth, div (add (sub inHeight outHeight) 1) 2)
  | SOUTH => (div (add (sub inWidth outWidth) 1) 2, sub inHeight outHeight)
  | WEST => (0, div (add (sub inHeight outHeight) 1) 2)
  | _ =>
      (div (add (sub inWidth outWidth) 1) 2,
       div (add (sub inHeight outHeight) 1) 2)
  end.

Definition calculateRotationAndFlip (image : option VipsImage)
  (angle : Angle) : Angle * bool :=
  if 0 <? angle then (D0, false)
  else
    match vipsExifOrientation image with
    | 6 => (D90, false)
    | 3 => (D180, false)
    | 8 => (D270, false)
    | 2 => (D0, true)
    | 7 => (D90, true)
    | 4 => (D180, true)
    | 5 => (D270, true)
    | _ => (D0, false)
    end.

Definition calculateShrink (factor : float64) (i : Interpolator) : int :=
  let windowSize := vipsWindowSize (Interpolator_String i) in
  let shrink :=
    if fle (of_int 2) factor && flt (of_int 3) windowSize
    then math_Floor (fdiv (fmul factor (of_int 3)) windowSize)
    else math_Floor factor in
  to_int (math_Max shrink (of_int 1)).

Definition calculateResidual (factor : float64) (shrink : int) : float64 :=
  fdiv (of_int shrink) factor.

Definition getAngle (angle : Angle) : Angle :=
  let divisor := rem angle 90 in
  let angle := if negb (divisor =? 0) then sub angle divisor else angle in
  to_int (math_Min (of_int angle) (of_int 270)).

(** *** resize.go: the pipeline steps *)

Definition extractOrEmbedImage (image : option VipsImage) (o : Options)
  : result (option VipsImage) :=
  inWidth <- image_Xsize image ;;
  inHeight <- image_Ysize image ;;
  if Crop o then
    let width := to_int (math_Min (of_int inWidth) (of_int (Width o))) in
    let height := to_int (math_Min (of_int inHeight) (of_int (Height o))) in
    let offsets :=
      calculateCrop inWidth inHeight (Width o) (Height o) (Gravity_ o) in
    let left := to_int (math_Max (of_int (fst offsets)) fzero) in
    let top := to_int (math_Max (of_int (snd offsets)) fzero) in
    vipsExtract image left top width height
  else if Embed o then
    let left := div (sub (Width o) inWidth) 2 in
    let top := div (sub (Height o) inHeight) 2 in
    vipsEmbed image left top (Width o) (Height o) (Extend o)
  else if (0 <? Top o) || (0 <? Left o) then
    let o := if AreaWidth o =? 0 then set_AreaHeight (Width o) o else o in
    let o := if AreaHeight o =? 0 then set_AreaHeight (Height o) o else o in
    if (AreaWidth o =? 0) || (AreaHeight o =? 0)
    then Err "Extract area width/height params are required"
    else vipsExtract image (Left o) (Top o) (AreaWidth o) (AreaHeight o)
  else Ok image.

(** The options are a copy: what is written to them here stays here.
    A failed rotation leaves a nil image and its error, and a flip that
    follows replaces both. *)
Definition rotateAndFlipImage (image : option VipsImage) (o : Options)
  : result (option VipsImage) :=
  let o :=
    if negb (NoAutoRotate o) then
      let '(rotation, flip) := calculateRotationAndFlip image (Rotate o) in
      let o := if flip then set_Flip flip o else o in
      if (D0 <? rotation) && (Rotate o =? 0) then set_Rotate rotation o
      else o
    else o in
  let rotated :=
    if 0 <? Rotate o then vipsRotate image (getAngle (Rotate o))
    else Ok image in
  let direction :=
    if Flip o then Some HORIZONTAL
    else if Flop o then Some VERTICAL
    else None in
  match direction with
  | Some d => vipsFlip (match rotated with Ok i => i | _ => None end) d
  | None => rotated
  end.

(** The opacity is a [float32] in the source; only 0, 0.25 and 1 are
    written to it, and they are the same values in both formats. *)
Definition watermakImage (image : option VipsImage) (w : Watermark)
  : result (option VipsImage) :=
  if String.eqb (wText w) "" then Ok image
  else
    let w := if String.eqb (wFont w) "" then set_wFont WATERMARK_FONT w
             else w in
    w <- (if wWidth w =? 0 then
            xsize <- image_Xsize image ;;
            Ok (set_wWidth
                  (to_int (math_Floor (of_int (Z.quot xsize 6)))) w)
          else Ok w) ;;
    let w := if wDPI w =? 0 then set_wDPI 150 w else w in
    let w := if wMargin w =? 0 then set_wMargin (wWidth w) w else w in
    let w :=
      if feq (wOpacity w) fzero
      then set_wOpacity (fdiv (of_int 1) (of_int 4)) w
      else if flt (of_int 1) (wOpacity w) then set_wOpacity (of_int 1) w
      else w in
    vipsWatermark image w.

Definition zoomImage (image : option VipsImage) (zoom : int)
  : result (option VipsImage) :=
  if zoom =? 0 then Ok image else vipsZoom image (add zoom 1).

Definition shrinkImage (image : option VipsImage) (o : Options)
  (residual : float64) (shrink : int)
  : result (option VipsImage * float64) :=
  image <- vipsShrink image shrink ;;
  xsize <- image_Xsize image ;;
  ysize <- image_Ysize image ;;
  let residualx := fdiv (of_int (Width o)) (of_int xsize) in
  let residualy := fdiv (of_int (Height o)) (of_int ysize) in
  Ok (image,
      if Crop o then math_Max residualx residualy
      else math_Min residualx residualy).

(** The image comes back nil when no shrink-on-load level applies. *)
Definition shrinkJpegImage (buf : list byte) (input : option VipsImage)
  (factor : float64) (shrink : int)
  : result (option VipsImage * float64) :=
  let '(factor, shrinkOnLoad) :=
    if 8 <=? shrink then (fdiv factor (of_int 8), 8)
    else if 4 <=? shrink then (fdiv factor (of_int 4), 4)
    else if 2 <=? shrink then (fdiv factor (of_int 2), 2)
    else (factor, 1) in
  if 1 <? shrinkOnLoad then
    image <- vipsShrinkJpeg buf input shrinkOnLoad ;;
    Ok (image, factor)
  else Ok (None, factor).

(** [if o.Force { o.Crop = false; o.Embed = false }] of [transformImage] *)
Definition forceDisablesCropEmbed (o : Options) : Options :=
  if Force o then set_Embed false (set_Crop false o) else o.

Definition transformImage (image : option VipsImage) (o : Options)
  (shrink : int) (residual : float64) : result (option VipsImage) :=
  '(image, residual) <-
    (if 1 <? shrink then shrinkImage image o residual shrink
     else Ok (image, residual)) ;;
  '(residualx, residualy) <-
    (if Force o then
       xsize <- image_Xsize image ;;
       ysize <- image_Ysize image ;;
       Ok (fdiv (of_int (Width o)) (of_int xsize),
           fdiv (of_int (Height o)) (of_int ysize))
     else Ok (residual, residual)) ;;
  image <-
    (if Force o || negb (feq residual fzero)
     then vipsAffine image residualx residualy (Interpolator_ o)
     else Ok image) ;;
  extractOrEmbedImage image (forceDisablesCropEmbed o).

Definition applyEffects (image : option VipsImage) (o : Options)
  : result (option VipsImage) :=
  if flt fzero (Sigma (GaussianBlur_ o))
     || flt fzero (MinAmpl (GaussianBlur_ o))
  then vipsGaussianBlur image (GaussianBlur_ o)
  else Ok image.

(** *** resize.go: [Resize] *)

(** The plan that [Resize] carries from one step to the next. *)
Record Plan : Type := {
  options : Options;
  factor : float64;
  shrink : int;
  residual : float64
}.

(** [Resize], from [normalizeOperation] to the end of the no-enlarge
    guard. *)
Definition Resize_geometry (o : Options) (inWidth inHeight : int) : Plan :=
  let o := normalizeOperation o inWidth inHeight in
  let '(o, factor) := imageCalculations o inWidth inHeight in
  let shrink := calculateShrink factor (Interpolator_ o) in
  let residual := calculateResidual factor shrink in
  if negb (Enlarge o) && negb (Force o)
     && (inWidth <? Width o) && (inHeight <? Height o)
  then {| options := set_Height inHeight (set_Width inWidth o);
          factor := of_int 1; shrink := 1; residual := fzero |}
  else {| options := o; factor := factor; shrink := shrink;
          residual := residual |}.

(** [Resize], the libjpeg shrink-on-load step.  The [factor] that the
    step assigns is a variable of its own block; the plan keeps the
    factor it had. *)
Definition Resize_shrinkOnLoad (buf : list byte) (image : option VipsImage)
  (imageType : ImageType) (p : Plan) : result (option VipsImage * Plan) :=
  if ImageType_eqb imageType JPEG && (2 <=? shrink p) then
    '(tmpImage, factor1) <- shrinkJpegImage buf image (factor p) (shrink p) ;;
    let factor1 := math_Max factor1 (of_int 1) in
    let shrink1 := to_int (math_Floor factor1) in
    Ok (tmpImage,
        {| options := options p; factor := factor p; shrink := shrink1;
           residual := fdiv (of_int shrink1) factor1 |})
  else Ok (image, p).

Definition Resize (buf : list byte) (o : Options) : result (list byte) :=
  if (List.length buf =? 0)%nat then Err "Image buffer is empty"
  else
    '(image, imageType) <- vipsRead buf ;;
    let o := applyDefaults o imageType in
    if negb (IsTypeSupported (Type_ o))
    then Err "Unsupported image output type"
    else
      inWidth <- image_Xsize image ;;
      inHeight <- image_Ysize image ;;
      let p := Resize_geometry o inWidth inHeight in
      '(image, p) <- Resize_shrinkOnLoad buf image imageType p ;;
      let o := options p in
      image <- zoomImage image (Zoom o) ;;
      image <- rotateAndFlipImage image o ;;
      image <-
        (if shouldTransformImage o inWidth inHeight
         then transformImage image o (shrink p) (residual p)
         else Ok image) ;;
      image <-
        (if shouldApplyEffects o then applyEffects image o else Ok image) ;;
      image <- watermakImage image (Watermark_ o) ;;
      vipsSave image
        {| sQuality := Quality o; sType := Type_ o;
           sCompression := Compression o; sInterlace := Interlace o;
           sNoProfile := NoProfile o;
           sInterpretation := Interpretation_ o |}.

End Bimg.

(** ** A test double for the engine

    An image is its width, its height and its orientation tag; every
    entry point succeeds and hands back an image of the size that the
    operation asks for. *)
Definition stubInterpolatorName (i : Interpolator) : string :=
  match i with
  | 0 => "bicubic"
  | 1 => "bilinear"
  | _ => "nohalo"
  end.

Definition stubWindowSize (name : string) : Z :=
  if String.eqb name "bicubic" then 4
  else if String.eqb name "bilinear" then 2
  else 5.

Definition stubImage : Type := Z * Z * Z.

Definition stubResize (f : Z -> Z) (image : option stubImage)
  : cgo (option stubImage) :=
  match image with
  | Some (w, h, t) => Done (Some (f w, f h, t))
  | None => Failed "no image"
  end.

Definition stubEngine : Vips := {|
  VipsImage := stubImage;
  Xsize := fun i => fst (fst i);
  Ysize := fun i => snd (fst i);
  QUALITY := 95;
  MAX_SIZE := 10000;
  INTERPRETATION_sRGB := 22;
  WATERMARK_FONT := "sans 10";
  HasMagickSupport := false;
  IsTypeSupported := fun _ => true;
  Interpolator_String := stubInterpolatorName;
  interpolator_window_size := stubWindowSize;
  vips_exif_orientation :=
    fun image => match image with Some i => snd i | None => 0 end;
  vips_foreign_find_load_buffer := fun _ => "VipsForeignLoad";
  vips_init_image := fun _ _ => Done (Some (100, 100, 0));
  vips_jpegload_buffer_shrink :=
    fun _ level => Done (Some (Z.quot 100 level, Z.quot 100 level, 0));
  vips_rotate := fun image _ => Done image;
  vips_flip_bridge := fun image _ => Done image;
  vips_zoom_bridge := fun image x _ => stubResize (fun n => n * x) image;
  vips_shrink_bridge :=
    fun image x _ =>
      stubResize (fun n => match trunc x with
                           | Some k => Z.quot n k
                           | None => n
                           end) image;
  vips_affine_interpolator := fun image _ _ _ => Done image;
  vips_extract_area_bridge :=
    fun image _ _ w h =>
      match image with
      | Some (_, _, t) => Done (Some (w, h, t))
      | None => Failed "no image"
      end;
  vips_embed_bridge :=
    fun image _ _ w h _ =>
      match image with
      | Some (_, _, t) => Done (Some (w, h, t))
      | None => Failed "no image"
      end;
  vips_gaussblur_bridge := fun image _ _ => Done image;
  vips_watermark := fun image _ => Done image;
  remove_profile := fun image => image;
  vips_colourspace_issupported_bridge := fun _ => 0;
  vips_colourspace_bridge := fun image _ => Done image;
  vips_webpsave_bridge := fun _ _ => Done [];
  vips_pngsave_bridge := fun _ _ _ _ => Done [];
  vips_jpegsave_bridge := fun _ _ _ => Done []
|}.

(** The zero value of [Options]. *)
Definition zeroOptions : Options := {|
  Height := 0; Width := 0; AreaHeight := 0; AreaWidth := 0;
  Top := 0; Left := 0; Extend := 0; Quality := 0; Compression := 0;
  Zoom := 0; Crop := false; Enlarge := false; Embed := false;
  Flip := false; Flop := false; Force := false; NoAutoRotate := false;
  NoProfile := false; Interlace := false; Rotate := 0;
  Gravity_ := CENTRE;
  Watermark_ :=
    {| wWidth := 0; wDPI := 0; wMargin := 0; wOpacity := fzero;
       wNoReplicate := false; wText := ""; wFont := "";
       wBackground := {| R := 0; G := 0; B := 0 |} |};
  Type_ := UNKNOWN; Interpolator_ := 0; Interpretation_ := 0;
  GaussianBlur_ := {| Sigma := fzero; MinAmpl := fzero |}
|}.

(** ** Definitions that follow the specification's words *)

(** The plan of an input that is left at its own size. *)
Definition unscaled (p : Plan) (inWidth inHeight : int) : Prop :=
  Width (options p) = inWidth /\ Height (options p) = inHeight
  /\ factor p = of_int 1 /\ shrink p = 1 /\ residual p = fzero.

(** The crop anchor table, over the integers, [Z.quot] being the
    division that truncates toward zero. *)
Definition cropOffsets (inW inH outW outH : Z) (g : Gravity) : Z * Z :=
  match g with
  | NORTH => (Z.quot (inW - outW + 1) 2, 0)
  | EAST => (inW - outW, Z.quot (inH - outH + 1) 2)
  | SOUTH => (Z.quot (inW - outW + 1) 2, inH - outH)
  | WEST => (0, Z.quot (inH - outH + 1) 2)
  | CENTRE => (Z.quot (inW - outW + 1) 2, Z.quot (inH - outH + 1) 2)
  end.

(** The orientation table: tag, then rotation and flip. *)
Definition orientationTable : list (Z * (Angle * bool)) :=
  [ (6, (90, false)); (3, (180, false)); (8, (270, false));
    (2, (0, true)); (7, (90, true)); (4, (180, true)); (5, (270, true)) ].

Fixpoint assoc {A : Type} (k : Z) (l : list (Z * A)) : option A :=
  match l with
  | [] => None
  | (k', v) :: l' => if k =? k' then Some v else assoc k l'
  end.

(** The value that [calculateShrink] clamps: the floor of
    [factor * 3 / windowSize] for a factor of 2 and more under a window
    wider than 3, the floor of [factor] otherwise. *)
Definition shrinkBeforeClamp (windowSize factor : float64) : float64 :=
  if fle (of_int 2) factor && flt (of_int 3) windowSize
  then math_Floor (fdiv (fmul factor (of_int 3)) windowSize)
  else math_Floor factor.

(** The libjpeg shrink-on-load levels. *)
Definition shrinkOnLoadLevels : list Z := [2; 4; 8].

(** Which of force, crop and embed act in a call: force is the flag
    that normalization leaves; [transformImage] clears crop and embed
    under force; [extractOrEmbedImage] tries crop before embed. *)
Definition effectiveModes (o : Options) (inWidth inHeight : int)
  : bool * bool * bool :=
  let o := forceDisablesCropEmbed (normalizeOperation o inWidth inHeight) in
  (Force o, Crop o, negb (Crop o) && Embed o).

Definition exactlyOne (m : bool * bool * bool) : bool :=
  let '(f, c, e) := m in
  (if f then 1 else 0) + (if c then 1 else 0) + (if e then 1 else 0) =? 1.

(** ** Sample inputs *)

(** A 400x400 box, nothing else requested. *)
Definition box400 : Options := set_Height 400 (set_Width 400 zeroOptions).

(** A 400x400 box under crop. *)
Definition cropBox400 : Options := set_Crop true box400.

(** A 100x100 box under crop. *)
Definition cropBox100 : Options :=
  set_Crop true (set_Height 100 (set_Width 100 zeroOptions)).

(** Width 100 with enlarge, and no mode. *)
Definition enlargeWidth100 : Options := {|
  Height := 0; Width := 100; AreaHeight := 0; AreaWidth := 0;
  Top := 0; Left := 0; Extend := 0; Quality := 0; Compression := 0;
  Zoom := 0; Crop := false; Enlarge := true; Embed := false;
  Flip := false; Flop := false; Force := false; NoAutoRotate := false;
  NoProfile := false; Interlace := false; Rotate := 0;
  Gravity_ := CENTRE; Watermark_ := Watermark_ zeroOptions;
  Type_ := UNKNOWN; Interpolator_ := 0; Interpretation_ := 0;
  GaussianBlur_ := GaussianBlur_ zeroOptions
|}.

(** A region that starts one row down, its area left unset, in a
    100x100 target. *)
Definition top1Box100 : Options := {|
  Height := 100; Width := 100; AreaHeight := 0; AreaWidth := 0;
  Top := 1; Left := 0; Extend := 0; Quality := 0; Compression := 0;
  Zoom := 0; Crop := false; Enlarge := false; Embed := false;
  Flip := false; Flop := false; Force := false; NoAutoRotate := false;
  NoProfile := false; Interlace := false; Rotate := 0;
  Gravity_ := CENTRE; Watermark_ := Watermark_ zeroOptions;
  Type_ := UNKNOWN; Interpolator_ := 0; Interpretation_ := 0;
  GaussianBlur_ := GaussianBlur_ zeroOptions
|}.

(** The first 12 bytes of a WebP file: "RIFF", a length, "WEBP". *)
Definition webpHeader : list byte :=
  [x52; x49; x46; x46; x00; x00; x00; x00; x57; x45; x42; x50].

(** Eleven bytes, none of them a PNG, JPEG or TIFF signature, the last
    three the start of "WEBP" at offset 8: every prefix of one byte and
    more ends inside a comparison. *)
Definition panickingPrefix : list byte :=
  [x00; x00; x00; x00; x00; x00; x00; x00; x57; x45; x42].

(** A plan whose shrink is 5. *)
Definition planShrink5 : Plan :=
  {| options := zeroOptions; factor := of_int 5; shrink := 5;
     residual := of_int 1 |}.

(** ** Shapes of converted and floored values *)

(** The shape of [float64(n)] for a natural [n]. *)
Inductive of_int_shape (n : Z) : float64 -> Prop :=
| shape_zero : n = 0 -> of_int_shape n (S754_zero false)
| shape_small m :
    0 < n < 2 ^ 53 -> Zpos m = n * 2 ^ (52 - Z.log2 n) ->
    of_int_shape n (S754_finite false m (Z.log2 n - 52))
| shape_large m e :
    2 ^ 53 <= n -> 1 <= e -> of_int_shape n (S754_finite false m e)
| shape_overflow :
    2 ^ 64 <= n -> of_int_shape n (S754_infinity false).

(** What [math.Floor] can return. *)
Inductive floor_shape : float64 -> Prop :=
| floor_zero s : floor_shape (S754_zero s)
| floor_negative m e : floor_shape (S754_finite true m e)
| floor_integral m e : 0 <= e -> floor_shape (S754_finite false m e)
| floor_small n m :
    0 < n < 2 ^ 53 -> Zpos m = n * 2 ^ (52 - Z.log2 n) ->
    floor_shape (S754_finite false m (Z.log2 n - 52))
| floor_infinity s : floor_shape (S754_infinity s)
| floor_nan : floor_shape S754_nan.

(** Reading a field of an assigned struct. *)
Ltac fields :=
  unfold set_Height, set_Width, set_AreaHeight, set_Quality, set_Compression,
    set_Type_, set_Interpretation_, set_Crop, set_Embed, set_Flip, set_Force,
    set_Rotate;
  cbn [Height Width AreaHeight AreaWidth Top Left Extend Quality Compression
       Zoom Crop Enlarge Embed Flip Flop Force NoAutoRotate NoProfile
       Interlace Rotate Gravity_ Watermark_ Type_ Interpolator_
       Interpretation_ GaussianBlur_].

(** ** Facts about [float64] and [int] *)

Lemma digits2_pos_size p : digits2_pos p = Pos.size p.
Proof. induction p; simpl; congruence. Qed.

Lemma digits2_log2 p : Zpos (digits2_pos p) = Z.log2 (Zpos p) + 1.
Proof.
  rewrite digits2_pos_size. destruct p; simpl; try reflexivity;
  rewrite Pos.add_1_r; reflexivity.
Qed.

Lemma digits2_bounds p :
  2 ^ (Zpos (digits2_pos p) - 1) <= Zpos p < 2 ^ Zpos (digits2_pos p).
Proof.
  rewrite digits2_log2.
  replace (Z.log2 (Zpos p) + 1 - 1) with (Z.log2 (Zpos p)) by lia.
  apply (Z.log2_spec (Zpos p)). lia.
Qed.

Lemma iter_xO_shiftl p k : Zpos (Pos.iter xO p k) = Zpos p * 2 ^ Zpos k.
Proof.
  rewrite <- Z.shiftl_mul_pow2 by lia. simpl.
  apply (Pos.iter_swap_gen _ _ Zpos xO (Z.mul 2)). reflexivity.
Qed.

Lemma digits2_iter_xO p k :
  Zpos (digits2_pos (Pos.iter xO p k)) = Zpos (digits2_pos p) + Zpos k.
Proof.
  rewrite !digits2_log2, iter_xO_shiftl.
  rewrite Z.log2_mul_pow2 by lia. lia.
Qed.

(** A mantissa of 53 digits with an exponent in range is kept as it is. *)
Lemma binary_round_aux_canonical s m e :
  Zpos (digits2_pos m) = 53 -> -1074 <= e <= 971 ->
  binary_round_aux prec emax s (Zpos m) e loc_Exact = S754_finite s m e.
Proof.
  intros Hd He.
  assert (Hs : shr_fexp prec emax (Zpos m) e loc_Exact
               = ({| shr_m := Zpos m; shr_r := false; shr_s := false |}, e)).
  { unfold shr_fexp, fexp, emin, prec, emax. simpl Zdigits2. rewrite Hd.
    replace (Z.max (53 + e - 53) (3 - 1024 - 53) - e) with 0 by lia.
    reflexivity. }
  unfold binary_round_aux. rewrite Hs. simpl. rewrite Hs. simpl.
  change (Z.sub emax prec) with 971.
  destruct (Z.leb_spec e 971); [reflexivity | lia].
Qed.

(** [float64(n)] for a positive [n] below 2^53: the mantissa is [n]
    shifted up to 53 digits. *)
Lemma of_int_small p :
  Zpos p < 2 ^ 53 ->
  exists m,
    of_int (Zpos p) = S754_finite false m (Zpos (digits2_pos p) - 53)
    /\ Zpos m = Zpos p * 2 ^ (53 - Zpos (digits2_pos p)).
Proof.
  intros Hp.
  pose proof (digits2_bounds p) as [Hlo _].
  assert (Hd : Zpos (digits2_pos p) <= 53).
  { destruct (Z.le_gt_cases (Zpos (digits2_pos p)) 53) as [|Hgt]; [assumption|].
    exfalso. assert (2 ^ 53 <= 2 ^ (Zpos (digits2_pos p) - 1))
      by (apply Z.pow_le_mono_r; lia). lia. }
  unfold of_int, binary_normalize, binary_round, shl_align, fexp, emin,
    prec, emax.
  replace (Z.max (Zpos (digits2_pos p) + 0 - 53) (3 - 1024 - 53) - 0)
    with (Zpos (digits2_pos p) - 53) by lia.
  replace (Z.max (Zpos (digits2_pos p) + 0 - 53) (3 - 1024 - 53))
    with (Zpos (digits2_pos p) - 53) by lia.
  destruct (Zpos (digits2_pos p) - 53) as [|k|k] eqn:Hk; try lia.
  - exists p. split.
    + apply (binary_round_aux_canonical false p 0); lia.
    + replace (53 - Zpos (digits2_pos p)) with 0 by lia. simpl. lia.
  - exists (Pos.iter xO p k). split.
    + apply (binary_round_aux_canonical false (Pos.iter xO p k) (Zneg k)).
      * rewrite digits2_iter_xO. lia.
      * lia.
    + rewrite iter_xO_shiftl. f_equal. f_equal. lia.
Qed.

Lemma binary_round_sign p e :
  binary_round prec emax true p e = SFopp (binary_round prec emax false p e).
Proof.
  unfold binary_round.
  destruct (shl_align p e _) as [mz ez].
  unfold binary_round_aux.
  destruct (shr_fexp prec emax (Zpos mz) ez loc_Exact) as [mrs' e'].
  destruct (shr_fexp prec emax _ e' loc_Exact) as [mrs'' e''].
  destruct (shr_m mrs''); try reflexivity.
  destruct (Z.leb e'' (Z.sub emax prec)); reflexivity.
Qed.

Lemma iter_pos_iter {A : Type} (f : A -> A) n x :
  iter_pos f n x = Pos.iter f x n.
Proof.
  revert x. induction n as [n IH|n IH|]; intros x; simpl.
  - rewrite !IH, !Pos.iter_swap. reflexivity.
  - rewrite !IH. reflexivity.
  - reflexivity.
Qed.

Lemma shr_1_m mrs : 0 <= shr_m mrs -> shr_m (shr_1 mrs) = Z.div2 (shr_m mrs).
Proof.
  destruct mrs as [m r s]. simpl. intros Hm.
  destruct m as [|[p|p|]|p]; try reflexivity; lia.
Qed.

Lemma shr_m_iter n mrs :
  0 <= shr_m mrs ->
  shr_m (iter_pos shr_1 n mrs) = shr_m mrs / 2 ^ Zpos n.
Proof.
  intros Hm. rewrite iter_pos_iter.
  induction n as [|n IH] using Pos.peano_ind.
  - simpl Pos.iter. rewrite shr_1_m, Z.div2_div by assumption. reflexivity.
  - rewrite Pos.iter_succ, shr_1_m, IH, Z.div2_div.
    + rewrite Pos2Z.inj_succ, Z.pow_succ_r by lia.
      rewrite Z.div_div by lia. f_equal. lia.
    + rewrite IH. apply Z.div_pos; lia.
Qed.

Lemma round_nearest_even_bounds m l :
  m <= round_nearest_even m l <= m + 1.
Proof.
  unfold round_nearest_even.
  destruct l as [|[]]; try destruct (Z.even m); lia.
Qed.

(** [float64(n)] for [n] from 2^53 up: a positive value whose exponent
    is positive, or +Inf once the exponent leaves the format. *)
Lemma of_int_large p :
  2 ^ 53 <= Zpos p ->
  exists m e,
    1 <= e <= Zpos (digits2_pos p) - 52
    /\ of_int (Zpos p)
       = if e <=? 971 then S754_finite false m e else S754_infinity false.
Proof.
  intros Hlo.
  pose proof (digits2_bounds p) as [Hdlo Hdhi].
  set (d := Zpos (digits2_pos p)) in *.
  assert (Hd : 53 < d).
  { destruct (Z.lt_ge_cases 53 d) as [|Hle]; [assumption|]. exfalso.
    assert (2 ^ d <= 2 ^ 53) by (apply Z.pow_le_mono_r; lia). lia. }
  unfold of_int, binary_normalize, binary_round, shl_align, fexp, emin,
    prec, emax. fold d.
  replace (Z.max (d + 0 - 53) (3 - 1024 - 53) - 0) with (d - 53) by lia.
  replace (Z.max (d + 0 - 53) (3 - 1024 - 53)) with (d - 53) by lia.
  destruct (d - 53) as [|k|k] eqn:Hk; try lia.
  unfold binary_round_aux.
  assert (Hs1 : shr_fexp 53 1024 (Zpos p) 0 loc_Exact
                = (iter_pos shr_1 k
                     {| shr_m := Zpos p; shr_r := false; shr_s := false |},
                   Zpos k)).
  { unfold shr_fexp, fexp, emin. simpl Zdigits2. fold d.
    replace (Z.max (d + 0 - 53) (3 - 1024 - 53) - 0) with (Zpos k) by lia.
    reflexivity. }
  rewrite Hs1.
  set (mrs1 := iter_pos shr_1 k _).
  assert (Hm1 : shr_m mrs1 = Zpos p / 2 ^ Zpos k)
    by (apply (shr_m_iter k {| shr_m := Zpos p; shr_r := false;
                               shr_s := false |}); simpl; lia).
  assert (Hb1 : 2 ^ 52 <= shr_m mrs1 < 2 ^ 53).
  { rewrite Hm1. split.
    - apply Z.div_le_lower_bound; [lia|].
      rewrite <- Z.pow_add_r by lia.
      replace (Zpos k + 52) with (d - 1) by lia. lia.
    - apply Z.div_lt_upper_bound; [lia|].
      rewrite <- Z.pow_add_r by lia.
      replace (Zpos k + 53) with d by lia. lia. }
  pose proof (round_nearest_even_bounds (shr_m mrs1)
                (loc_of_shr_record mrs1)) as Hr.
  set (m2 := round_nearest_even _ _) in *.
  destruct m2 as [|q|q] eqn:Hm2; try lia.
  pose proof (digits2_bounds q) as [Hqlo Hqhi].
  set (dq := Zpos (digits2_pos q)) in *.
  assert (Hdq : dq = 53 \/ dq = 54).
  { assert (52 < dq).
    { destruct (Z.lt_ge_cases 52 dq) as [|Hle]; [assumption|]. exfalso.
      assert (2 ^ dq <= 2 ^ 52) by (apply Z.pow_le_mono_r; lia). lia. }
    assert (dq <= 54).
    { destruct (Z.le_gt_cases dq 54) as [|Hgt]; [assumption|]. exfalso.
      assert (2 ^ 54 <= 2 ^ (dq - 1)) by (apply Z.pow_le_mono_r; lia). lia. }
    lia. }
  unfold shr_fexp at 1, fexp, emin. simpl Zdigits2. fold dq.
  destruct Hdq as [Hdq|Hdq]; rewrite Hdq.
  - replace (Z.max (53 + Zpos k - 53) (3 - 1024 - 53) - Zpos k) with 0 by lia.
    exists q, (Zpos k). split; [lia | reflexivity].
  - replace (Z.max (54 + Zpos k - 53) (3 - 1024 - 53) - Zpos k) with 1 by lia.
    destruct q as [q'|q'|].
    3: { exfalso. unfold dq in Hdq. simpl in Hdq. lia. }
    all: exists q', (Zpos k + 1); split; [lia | reflexivity].
Qed.

Lemma of_int_has_shape n : 0 <= n -> of_int_shape n (of_int n).
Proof.
  intros Hn. destruct n as [|p|p]; try lia.
  - apply shape_zero. reflexivity.
  - destruct (Z.lt_ge_cases (Zpos p) (2 ^ 53)) as [Hs|Hl].
    + destruct (of_int_small p Hs) as (m & -> & Hm).
      rewrite digits2_log2 in *.
      replace (Z.log2 (Zpos p) + 1 - 53) with (Z.log2 (Zpos p) - 52) by lia.
      apply shape_small; [lia|].
      rewrite Hm. f_equal. f_equal. lia.
    + destruct (of_int_large p Hl) as (m & e & He & ->).
      destruct (Z.leb_spec e 971) as [Hle|Hgt].
      * apply shape_large; lia.
      * apply shape_overflow.
        rewrite digits2_log2 in He.
        assert (Hlog : 64 <= Z.log2 (Zpos p)) by lia.
        apply Z.log2_le_pow2; lia.
Qed.

Lemma of_int_neg p :
  Zpos p < 2 ^ 64 -> exists m e, of_int (Zneg p) = S754_finite true m e.
Proof.
  intros Hp. unfold of_int, binary_normalize. rewrite binary_round_sign.
  change (binary_round prec emax false p 0) with (of_int (Zpos p)).
  destruct (of_int_has_shape (Zpos p)) as [H0|m Hn Hm|m e Hn He|Ho];
    try lia; simpl; eauto.
Qed.

Lemma to_int_of_int `{Target} n : 0 <= n < 2 ^ 53 -> to_int (of_int n) = n.
Proof.
  intros Hn.
  destruct (of_int_has_shape n) as [H0|m Hn' Hm|m e Hn' He|Ho]; try lia.
  - subst n. reflexivity.
  - unfold to_int, trunc. simpl cond_Zopp.
    assert (Hl : 0 <= Z.log2 n <= 52).
    { split; [apply Z.log2_nonneg|].
      assert (Z.log2 n < 53) by (apply Z.log2_lt_pow2; lia). lia. }
    assert (Hv : (if 0 <=? Z.log2 n - 52 then Z.shiftl (Zpos m) (Z.log2 n - 52)
                  else Z.shiftr (Zpos m) (- (Z.log2 n - 52))) = n).
    { destruct (Z.leb_spec 0 (Z.log2 n - 52)).
      - assert (Hl52 : Z.log2 n = 52) by lia.
        rewrite Hm, Hl52. simpl. lia.
      - rewrite Z.shiftr_div_pow2, Hm by lia.
        replace (- (Z.log2 n - 52)) with (52 - Z.log2 n) by lia.
        apply Z.div_mul. apply Z.pow_nonzero; lia. }
    rewrite Hv.
    assert (Hi : in_int n = true).
    { unfold in_int, int_min, int_max. apply andb_true_iff.
      split; apply Z.leb_le; lia. }
    rewrite Hi. reflexivity.
Qed.

Lemma flt_of_int a b :
  0 <= a < 2 ^ 64 -> 0 <= b < 2 ^ 64 -> a < 2 ^ 53 \/ b < 2 ^ 53 ->
  flt (of_int a) (of_int b) = (a <? b).
Proof.
  intros Ha Hb Hab.
  destruct (of_int_has_shape a (proj1 Ha)) as [Ha0|ma Ha' Hma|ma ea Ha' Hea|Hao];
  destruct (of_int_has_shape b (proj1 Hb)) as [Hb0|mb Hb' Hmb|mb eb Hb' Heb|Hbo];
    unfold flt, SFltb, SFcompare; try lia.
  - destruct (Z.compare_spec (Z.log2 a - 52) (Z.log2 b - 52)) as [He|He|He].
    + rewrite Pos.compare_cont_spec. simpl.
      replace (Z.log2 b) with (Z.log2 a) in Hmb by lia.
      assert (Hp : 0 < 2 ^ (52 - Z.log2 a)).
      { apply Z.pow_pos_nonneg; [lia|].
        assert (Z.log2 a < 53) by (apply Z.log2_lt_pow2; lia). lia. }
      destruct (Pos.compare_spec ma mb) as [Hc|Hc|Hc]; symmetry.
      * apply Z.ltb_ge. subst mb. nia.
      * apply Z.ltb_lt. apply Pos2Z.pos_lt_pos in Hc. nia.
      * apply Z.ltb_ge. apply Pos2Z.pos_lt_pos in Hc. nia.
    + symmetry. apply Z.ltb_lt.
      destruct (Z.lt_ge_cases a b) as [|Hge]; [assumption|]. exfalso.
      assert (Z.log2 b <= Z.log2 a) by (apply Z.log2_le_mono; lia). lia.
    + symmetry. apply Z.ltb_ge.
      destruct (Z.le_gt_cases b a) as [|Hgt]; [assumption|]. exfalso.
      assert (Z.log2 a <= Z.log2 b) by (apply Z.log2_le_mono; lia). lia.
  - symmetry. destruct (Z.compare_spec (Z.log2 a - 52) eb) as [He|He|He].
    + assert (Z.log2 a < 53) by (apply Z.log2_lt_pow2; lia). lia.
    + apply Z.ltb_lt. lia.
    + assert (Z.log2 a < 53) by (apply Z.log2_lt_pow2; lia). lia.
  - symmetry. destruct (Z.compare_spec ea (Z.log2 b - 52)) as [He|He|He].
    + assert (Z.log2 b < 53) by (apply Z.log2_lt_pow2; lia). lia.
    + assert (Z.log2 b < 53) by (apply Z.log2_lt_pow2; lia). lia.
    + apply Z.ltb_ge. lia.
Qed.

Lemma of_int_regular n s :
  0 <= n < 2 ^ 64 -> IsInf (of_int n) s = false /\ IsNaN (of_int n) = false.
Proof.
  intros Hn. destruct (of_int_has_shape n (proj1 Hn)); try lia;
    split; reflexivity.
Qed.

Lemma feq_of_int_zero n :
  0 <= n < 2 ^ 64 ->
  feq (of_int n) fzero = (n =? 0) /\ feq fzero (of_int n) = (n =? 0).
Proof.
  intros Hn.
  destruct (of_int_has_shape n (proj1 Hn)) as [H0|m Hn' Hm|m e Hn' He|Ho];
    try lia; unfold feq, SFeqb, fzero; simpl; split; symmetry;
    solve [apply Z.eqb_eq; lia | apply Z.eqb_neq; lia].
Qed.

(** [math.Min] of two converted naturals, one of them below 2^53, is
    the converted minimum. *)
Lemma math_Min_of_int a b :
  0 <= a < 2 ^ 64 -> 0 <= b < 2 ^ 64 -> a < 2 ^ 53 \/ b < 2 ^ 53 ->
  math_Min (of_int a) (of_int b) = of_int (Z.min a b).
Proof.
  intros Ha Hb Hab. unfold math_Min.
  destruct (of_int_regular a (-1) Ha) as [-> ->].
  destruct (of_int_regular b (-1) Hb) as [-> ->].
  simpl. rewrite (proj1 (feq_of_int_zero a Ha)), flt_of_int by assumption.
  destruct (Z.eqb_spec a 0) as [->|Hne].
  - change (of_int 0) with fzero.
    rewrite (proj2 (feq_of_int_zero b Hb)).
    destruct (Z.eqb_spec b 0) as [->|Hb0]; simpl; [reflexivity|].
    destruct (Z.ltb_spec 0 b); [|lia].
    replace (Z.min 0 b) with 0 by lia. reflexivity.
  - simpl. destruct (Z.ltb_spec a b).
    + replace (Z.min a b) with a by lia. reflexivity.
    + replace (Z.min a b) with b by lia. reflexivity.
Qed.

Lemma to_int_Min `{Target} a b :
  0 <= a < 2 ^ 64 -> 0 <= b < 2 ^ 64 -> a < 2 ^ 53 \/ b < 2 ^ 53 ->
  to_int (math_Min (of_int a) (of_int b)) = Z.min a b.
Proof.
  intros Ha Hb Hab. rewrite math_Min_of_int by assumption.
  apply to_int_of_int. lia.
Qed.

(** [int(math.Max(float64(n), 0))] clamps [n] at zero. *)
Lemma to_int_Max_zero `{Target} n :
  - 2 ^ 64 < n < 2 ^ 53 -> to_int (math_Max (of_int n) fzero) = Z.max n 0.
Proof.
  intros Hn. destruct (Z.lt_ge_cases n 0) as [Hneg|Hpos].
  - destruct n as [|p|p]; try lia.
    destruct (of_int_neg p) as (m & e & ->); [lia|].
    reflexivity.
  - assert (Hn' : 0 <= n < 2 ^ 64) by lia.
    unfold math_Max.
    destruct (of_int_regular n 1 Hn') as [-> ->]. simpl.
    rewrite (proj1 (feq_of_int_zero n Hn')).
    change fzero with (of_int 0) at 2.
    rewrite flt_of_int by lia.
    destruct (Z.eqb_spec n 0) as [->|Hne]; simpl.
    + reflexivity.
    + destruct (Z.ltb_spec 0 n); [|lia].
      rewrite to_int_of_int by lia. lia.
Qed.

Lemma trunc_small n m :
  0 < n < 2 ^ 53 -> Zpos m = n * 2 ^ (52 - Z.log2 n) ->
  trunc (S754_finite false m (Z.log2 n - 52)) = Some n.
Proof.
  intros Hn Hm. unfold trunc. simpl cond_Zopp. f_equal.
  assert (Hl : 0 <= Z.log2 n <= 52).
  { split; [apply Z.log2_nonneg|].
    assert (Z.log2 n < 53) by (apply Z.log2_lt_pow2; lia). lia. }
  destruct (Z.leb_spec 0 (Z.log2 n - 52)).
  - assert (Hl52 : Z.log2 n = 52) by lia.
    rewrite Hm, Hl52. simpl. lia.
  - rewrite Z.shiftr_div_pow2, Hm by lia.
    replace (- (Z.log2 n - 52)) with (52 - Z.log2 n) by lia.
    apply Z.div_mul. apply Z.pow_nonzero; lia.
Qed.

Lemma math_Floor_shape x : floor_shape (math_Floor x).
Proof.
  destruct x as [s|s| |s m e]; simpl; try constructor.
  destruct (Z.leb_spec 0 e) as [He|He].
  - destruct s; constructor; assumption.
  - assert (Hq : 0 <= Z.shiftr (Zpos m) (- e))
      by (apply Z.shiftr_nonneg; lia).
    destruct s.
    + set (q := if _ =? _ then _ else _).
      assert (Hq' : 0 <= q) by (unfold q; destruct (_ =? _); lia).
      destruct q as [|p|p]; try lia; simpl.
      * constructor.
      * rewrite binary_round_sign.
        change (binary_round prec emax false p 0) with (of_int (Zpos p)).
        destruct (of_int_has_shape (Zpos p)); try lia; simpl; constructor.
    + change (binary_normalize prec emax ?n 0 false) with (of_int n).
      destruct (of_int_has_shape _ Hq) as [H0|m' Hn Hm|m' e' Hn He'|Ho].
      * constructor.
      * apply (floor_small _ m'); assumption.
      * constructor. lia.
      * constructor.
Qed.

Lemma math_Max_finite s m e y :
  IsInf y 1 = false -> IsNaN y = false ->
  math_Max (S754_finite s m e) y
  = if flt y (S754_finite s m e) then S754_finite s m e else y.
Proof.
  intros Hi Hn. unfold math_Max.
  change (IsInf (S754_finite s m e) 1) with false.
  change (IsNaN (S754_finite s m e)) with false.
  rewrite Hi, Hn.
  replace (feq (S754_finite s m e) fzero) with false
    by (destruct s; reflexivity).
  reflexivity.
Qed.

Lemma flt_one_finite m e :
  flt (of_int 1) (S754_finite false m e)
  = match -52 ?= e with
    | Lt => true
    | Eq => (4503599627370496 <? m)%positive
    | Gt => false
    end.
Proof.
  change (of_int 1) with (S754_finite false 4503599627370496 (-52)).
  unfold flt, SFltb, SFcompare, Pos.ltb.
  rewrite Pos.compare_cont_spec.
  destruct (-52 ?= e); try reflexivity.
  destruct (4503599627370496 ?= m)%positive; reflexivity.
Qed.

(** [int(math.Max(v, 1))] for a floored [v] whose integral part [z] fits
    an [int]: [z] clamped at 1. *)
Lemma to_int_Max_one `{Target} v z :
  floor_shape v -> trunc v = Some z -> z <= int_max ->
  to_int (math_Max v (of_int 1)) = Z.max z 1.
Proof.
  intros Hv Hz Hmax.
  destruct Hv as [s|m e|m e He|n m Hn Hm|s|]; try discriminate.
  - injection Hz as <-. destruct s; reflexivity.
  - unfold trunc in Hz. injection Hz as <-.
    assert (0 <= (if 0 <=? e then Z.shiftl (Zpos m) e
                  else Z.shiftr (Zpos m) (- e))).
    { destruct (0 <=? e); [apply Z.shiftl_nonneg | apply Z.shiftr_nonneg];
        lia. }
    rewrite math_Max_finite by reflexivity.
    change (flt (of_int 1) (S754_finite true m e)) with false.
    unfold cond_Zopp. replace (Z.max _ 1) with 1 by lia. reflexivity.
  - rewrite math_Max_finite, flt_one_finite by reflexivity.
    destruct (Z.compare_spec (-52) e); try lia.
    unfold to_int. rewrite Hz.
    unfold trunc, cond_Zopp in Hz. injection Hz as Hz.
    destruct (Z.leb_spec 0 e); [|lia].
    assert (1 <= z).
    { subst z. rewrite Z.shiftl_mul_pow2 by lia.
      assert (0 < 2 ^ e) by (apply Z.pow_pos_nonneg; lia). nia. }
    assert (Hi : in_int z = true).
    { unfold in_int. apply andb_true_iff.
      split; apply Z.leb_le; unfold int_min; lia. }
    rewrite Hi. lia.
  - rewrite (trunc_small n m Hn Hm) in Hz. injection Hz as <-.
    assert (Hl : 0 <= Z.log2 n) by apply Z.log2_nonneg.
    rewrite math_Max_finite, flt_one_finite by reflexivity.
    destruct (Z.compare_spec (-52) (Z.log2 n - 52)) as [He|He|He]; try lia.
    + assert (Hl0 : Z.log2 n = 0) by lia.
      rewrite Hl0 in Hm. simpl in Hm.
      assert (Hn1 : n = 1).
      { destruct (Z.eq_dec n 1) as [|Hne]; [assumption|]. exfalso.
        assert (1 <= Z.log2 n) by (apply Z.log2_le_pow2; simpl; lia). lia. }
      subst n. replace m with 4503599627370496%positive by lia.
      reflexivity.
    + assert (Hn1 : 1 < n).
      { destruct (Z.lt_ge_cases 1 n) as [|Hle]; [assumption|]. exfalso.
        replace n with 1 in He by lia. simpl in He. lia. }
      unfold to_int. rewrite (trunc_small n m Hn Hm).
      assert (Hi : in_int n = true).
      { unfold in_int. apply andb_true_iff.
        split; apply Z.leb_le; unfold int_min; lia. }
      rewrite Hi. lia.
Qed.

(** ** The claims *)

Lemma wrap_small z : int_min <= z <= int_max -> wrap z = z.
Proof.
  unfold wrap, int_min, int_max. intros Hz.
  rewrite Z.mod_small by lia. lia.
Qed.

Section Claims.

Context {T : Target} {V : Vips}.

(** C1 (amended): when the caller leaves enlarge and force unset and the
    input is narrower and lower than the requested box, the no-enlarge
    guard fires as soon as crop, embed or a rotation was requested: the
    plan is left at the input size (factor 1, shrink 1, residual 0,
    width and height set to the input dimensions), the shrink-on-load
    step leaves image and plan alone and, no extract area being given,
    [transformImage] is not called.  When none of crop, embed and
    rotation was requested, normalization sets force, the guard stays
    silent and the requested width and height are kept. *)
Theorem Resize_no_enlarge_guard (o : Options) (inWidth inHeight : int) :
  Enlarge o = false -> Force o = false ->
  0 <= inWidth < Width o -> 0 <= inHeight < Height o ->
  (Crop o = true \/ Embed o = true \/ Rotate o <> 0 ->
   let p := Resize_geometry o inWidth inHeight in
   unscaled p inWidth inHeight
   /\ (forall buf image imageType,
         Resize_shrinkOnLoad buf image imageType p = Ok (image, p))
   /\ (AreaWidth o <= 0 -> AreaHeight o <= 0 ->
       shouldTransformImage (options p) inWidth inHeight = false))
  /\ (Crop o = false -> Embed o = false -> Rotate o = 0 ->
      let p := Resize_geometry o inWidth inHeight in
      Force (options p) = true /\ Width (options p) = Width o
      /\ Height (options p) = Height o).
Proof.
  intros He Hf Hw Hh.
  assert (HW : (0 <? Width o) = true) by (apply Z.ltb_lt; lia).
  assert (HH : (0 <? Height o) = true) by (apply Z.ltb_lt; lia).
  split.
  - intros Hmode.
    assert (Hn : normalizeOperation o inWidth inHeight = o).
    { unfold normalizeOperation. rewrite Hf, He.
      destruct Hmode as [-> | [-> | Hr]];
        [ reflexivity | destruct (Crop o); reflexivity | ].
      apply Z.eqb_neq in Hr. rewrite Hr.
      destruct (Crop o), (Embed o); reflexivity. }
    assert (Hp : Resize_geometry o inWidth inHeight
                 = {| options := set_Height inHeight (set_Width inWidth o);
                      factor := of_int 1; shrink := 1; residual := fzero |}).
    { unfold Resize_geometry. rewrite Hn.
      unfold imageCalculations. rewrite HW, HH. simpl andb. cbv iota beta.
      rewrite He, Hf.
      assert (Hlw : (inWidth <? Width o) = true) by (apply Z.ltb_lt; lia).
      assert (Hlh : (inHeight <? Height o) = true) by (apply Z.ltb_lt; lia).
      rewrite Hlw, Hlh. reflexivity. }
    intros p. unfold p. rewrite Hp. split; [|split].
    + repeat split; reflexivity.
    + intros buf image imageType. unfold Resize_shrinkOnLoad.
      cbn [shrink]. destruct (ImageType_eqb imageType JPEG); reflexivity.
    + intros Haw Hah. unfold shouldTransformImage. cbn [options]. fields.
      rewrite Hf, !Z.eqb_refl.
      apply Z.ltb_ge in Haw, Hah. rewrite Haw, Hah.
      destruct (0 <? inWidth), (0 <? inHeight); reflexivity.
  - intros Hc Hm Hr.
    assert (Hn : normalizeOperation o inWidth inHeight = set_Force true o).
    { unfold normalizeOperation. rewrite Hf, Hc, Hm, He, Hr, HW.
      reflexivity. }
    unfold Resize_geometry. rewrite Hn.
    unfold imageCalculations.
    change (Width (set_Force true o)) with (Width o).
    change (Height (set_Force true o)) with (Height o).
    rewrite HW, HH. simpl andb. cbv iota beta.
    change (Enlarge (set_Force true o)) with (Enlarge o).
    change (Force (set_Force true o)) with true.
    rewrite He. simpl. repeat split; reflexivity.
Qed.

(** C2: in the explicit-region branch an unset area width is never
    defaulted: the target width is written to the area height, the area
    width stays 0, and the call fails with "Extract area width/height
    params are required" whatever the target width is. *)
Theorem extractOrEmbedImage_unset_AreaWidth (image : VipsImage) (o : Options) :
  Crop o = false -> Embed o = false -> 0 < Top o \/ 0 < Left o ->
  AreaWidth o = 0 ->
  extractOrEmbedImage (Some image) o
  = Err "Extract area width/height params are required".
Proof.
  intros Hc He Htl Hw. unfold extractOrEmbedImage. simpl.
  rewrite Hc, He.
  assert (Hb : (0 <? Top o) || (0 <? Left o) = true).
  { apply orb_true_iff. destruct Htl; [left | right]; apply Z.ltb_lt; lia. }
  rewrite Hb, Hw. simpl (0 =? 0). cbv iota zeta.
  set (o1 := set_AreaHeight (Width o) o).
  set (o2 := if AreaHeight o1 =? 0 then set_AreaHeight (Height o1) o1
             else o1).
  assert (Hw2 : AreaWidth o2 = 0)
    by (unfold o2; destruct (AreaHeight o1 =? 0); exact Hw).
  rewrite Hw2. reflexivity.
Qed.

(** The default two lines below works: an unset area height takes the
    target height, and the region is extracted. *)
Lemma extractOrEmbedImage_unset_AreaHeight (image : VipsImage) (o : Options) :
  Crop o = false -> Embed o = false -> 0 < Top o \/ 0 < Left o ->
  AreaWidth o <> 0 -> AreaHeight o = 0 -> Height o <> 0 ->
  extractOrEmbedImage (Some image) o
  = vipsExtract (Some image) (Left o) (Top o) (AreaWidth o) (Height o).
Proof.
  intros Hc He Htl Hw Hh Hh0. unfold extractOrEmbedImage. simpl.
  rewrite Hc, He.
  assert (Hb : (0 <? Top o) || (0 <? Left o) = true).
  { apply orb_true_iff. destruct Htl; [left | right]; apply Z.ltb_lt; lia. }
  apply Z.eqb_neq in Hw, Hh0.
  rewrite Hb, Hw, Hh, Z.eqb_refl. fields. rewrite Hw, Hh0. reflexivity.
Qed.

(** C3 (amended): after normalization exactly one of force, crop and
    embed is effective when the caller requested one of them; when the
    caller requested none of force, crop, embed and enlarge, no rotation,
    and gave a width or a height, force is set and is the one effective
    mode; when the caller requested none of the three together with
    enlarge or a rotation, or gave no dimension, none is effective. *)
Theorem normalizeOperation_effective_mode (o : Options)
  (inWidth inHeight : int) :
  (Force o = true \/ Crop o = true \/ Embed o = true ->
   exactlyOne (effectiveModes o inWidth inHeight) = true)
  /\ (Force o = false -> Crop o = false -> Embed o = false ->
      Enlarge o = false -> Rotate o = 0 -> 0 < Width o \/ 0 < Height o ->
      Force (normalizeOperation o inWidth inHeight) = true
      /\ effectiveModes o inWidth inHeight = (true, false, false))
  /\ (Force o = false -> Crop o = false -> Embed o = false ->
      Enlarge o = true \/ Rotate o <> 0 \/ (Width o <= 0 /\ Height o <= 0) ->
      effectiveModes o inWidth inHeight = (false, false, false)).
Proof.
  assert (Hwh : forall w h : Z,
             0 < w \/ 0 < h -> (0 <? w) || (0 <? h) = true).
  { intros w h [Hw|Hh]; apply orb_true_iff; [left | right];
      apply Z.ltb_lt; assumption. }
  unfold effectiveModes, forceDisablesCropEmbed, normalizeOperation.
  split; [|split].
  - intros Hreq.
    destruct (Force o) eqn:Hf, (Crop o) eqn:Hc, (Embed o) eqn:He;
      simpl; fields; rewrite ?Hf, ?Hc, ?He; try reflexivity.
    destruct Hreq as [|[|]]; discriminate.
  - intros Hf Hc He Hen Hr Hd. rewrite Hf, Hc, He, Hen, Hr, (Hwh _ _ Hd).
    simpl. fields. split; reflexivity.
  - intros Hf Hc He Hother. rewrite Hf, Hc, He. simpl.
    assert (Hcond : negb (Enlarge o) && (Rotate o =? 0)
                    && ((0 <? Width o) || (0 <? Height o)) = false).
    { destruct Hother as [-> | [Hr | [Hw Hh]]].
      - reflexivity.
      - apply Z.eqb_neq in Hr. rewrite Hr. destruct (Enlarge o); reflexivity.
      - apply Z.ltb_ge in Hw, Hh. rewrite Hw, Hh.
        destruct (Enlarge o), (Rotate o =? 0); reflexivity. }
    rewrite Hcond. cbv iota. rewrite Hf. cbv iota.
    rewrite Hf, Hc, He. reflexivity.
Qed.

(** C8: [calculateRotationAndFlip] returns rotation 0 and no flip for
    every requested angle above 0; otherwise it reads the orientation
    tag and follows the table 6 -> 90, 3 -> 180, 8 -> 270, 2 -> flip,
    7 -> flip and 90, 4 -> flip and 180, 5 -> flip and 270; every other
    tag gives rotation 0 and no flip. *)
Theorem calculateRotationAndFlip_table (image : option VipsImage)
  (angle : Angle) :
  calculateRotationAndFlip image angle
  = if 0 <? angle then (0, false)
    else match assoc (vipsExifOrientation image) orientationTable with
         | Some r => r
         | None => (0, false)
         end.
Proof.
  unfold calculateRotationAndFlip.
  destruct (0 <? angle); [reflexivity|].
  destruct (vipsExifOrientation image) as [|p|p]; try reflexivity.
  do 4 (try destruct p as [p|p|]); reflexivity.
Qed.

(** C4: [imageCalculations] returns, for a positive width and height,
    the minimum of the two ratios under crop and their maximum
    otherwise, the options unchanged; for a positive width only, the
    width ratio, the height set to the floor of [inHeight / factor];
    for a positive height only, the height ratio, the width set to the
    floor of [inWidth / factor]; otherwise factor 1 and the input
    dimensions.  An 800x600 input asked for width 400 gets factor 2 and
    height 300. *)
Theorem imageCalculations_cases (o : Options) (inWidth inHeight : int) :
  let xfactor := fdiv (of_int inWidth) (of_int (Width o)) in
  let yfactor := fdiv (of_int inHeight) (of_int (Height o)) in
  (0 < Width o -> 0 < Height o ->
   imageCalculations o inWidth inHeight
   = (o, if Crop o then math_Min xfactor yfactor
         else math_Max xfactor yfactor))
  /\ (0 < Width o -> Height o <= 0 ->
      imageCalculations o inWidth inHeight
      = (set_Height (to_int (math_Floor (fdiv (of_int inHeight) xfactor))) o,
         xfactor))
  /\ (Width o <= 0 -> 0 < Height o ->
      imageCalculations o inWidth inHeight
      = (set_Width (to_int (math_Floor (fdiv (of_int inWidth) yfactor))) o,
         yfactor))
  /\ (Width o <= 0 -> Height o <= 0 ->
      imageCalculations o inWidth inHeight
      = (set_Height inHeight (set_Width inWidth o), of_int 1))
  /\ imageCalculations (set_Width 400 zeroOptions) 800 600
     = (set_Height 300 (set_Width 400 zeroOptions), of_int 2).
Proof.
  intros xfactor yfactor. unfold imageCalculations at 1 2 3 4.
  fold xfactor yfactor.
  repeat apply conj; try intros Hw Hh.
  - apply Z.ltb_lt in Hw, Hh. rewrite Hw, Hh. reflexivity.
  - apply Z.ltb_lt in Hw. apply Z.ltb_ge in Hh. rewrite Hw, Hh. reflexivity.
  - apply Z.ltb_ge in Hw. apply Z.ltb_lt in Hh. rewrite Hw, Hh. reflexivity.
  - apply Z.ltb_ge in Hw, Hh. rewrite Hw, Hh. reflexivity.
  - reflexivity.
Qed.

(** C5: [calculateShrink] converts the maximum of 1 and the floor of
    [factor * 3 / windowSize] (for a factor of 2 and more under a window
    wider than 3) or of [factor] (otherwise); whenever that floor fits
    an [int] the result is the floor clamped at 1, hence at least 1.
    A factor of 1 gives 1 under every interpolator, and a factor of 8
    under a window of 4 gives 6. *)
Theorem calculateShrink_clamped (factor : float64) (i : Interpolator) :
  let v := shrinkBeforeClamp (vipsWindowSize (Interpolator_String i)) factor in
  calculateShrink factor i = to_int (math_Max v (of_int 1))
  /\ (forall z, trunc v = Some z -> z <= int_max ->
      calculateShrink factor i = Z.max z 1 /\ 1 <= calculateShrink factor i)
  /\ calculateShrink (of_int 1) i = 1
  /\ (interpolator_window_size (Interpolator_String i) = 4 ->
      calculateShrink (of_int 8) i = 6).
Proof.
  intros v. repeat apply conj.
  - reflexivity.
  - intros z Hz Hmax.
    assert (Hv : floor_shape v).
    { unfold v, shrinkBeforeClamp.
      destruct (_ && _); apply math_Floor_shape. }
    change (calculateShrink factor i) with (to_int (math_Max v (of_int 1))).
    rewrite (to_int_Max_one v z Hv Hz Hmax). lia.
  - reflexivity.
  - intros Hws. unfold calculateShrink, vipsWindowSize. rewrite Hws.
    reflexivity.
Qed.

(** C7: for every non-negative angle [getAngle] returns the multiple of
    90 just below or at the angle, capped at 270; from 270 up it is 270;
    [getAngle 370 = 270], [getAngle 45 = 0], [getAngle 180 = 180]. *)
Theorem getAngle_floor90_cap270 :
  (forall angle : Angle,
      0 <= angle <= int_max ->
      getAngle angle = Z.min (90 * (angle / 90)) 270
      /\ (270 <= angle -> getAngle angle = 270))
  /\ getAngle 370 = 270 /\ getAngle 45 = 0 /\ getAngle 180 = 180.
Proof.
  split; [|repeat split; reflexivity].
  intros angle Ha. unfold Angle, int in angle.
  assert (Hg : getAngle angle = Z.min (90 * (angle / 90)) 270).
  { unfold getAngle, rem, sub.
    rewrite Z.rem_mod_nonneg by lia.
    pose proof (Z.mod_pos_bound angle 90 ltac:(lia)) as Hr.
    pose proof (Z.div_mod angle 90 ltac:(lia)) as Hd.
    assert (Ha' : (if negb (angle mod 90 =? 0)
                   then wrap (angle - angle mod 90) else angle)
                  = 90 * (angle / 90)).
    { unfold int.
      destruct (Z.eqb_spec (angle mod 90) 0) as [H0|H0]; cbn [negb].
      - lia.
      - rewrite wrap_small by (unfold int_min, int_max in *; lia). lia. }
    rewrite Ha'.
    apply to_int_Min; unfold int_max in *; lia. }
  split; [exact Hg|].
  intros H270. rewrite Hg.
  assert (3 <= angle / 90) by (apply Z.div_le_lower_bound; lia).
  lia.
Qed.

(** C6: [calculateCrop] follows the anchor table (the division
    truncating toward zero) whenever the differences do not wrap, and
    the crop branch of [extractOrEmbedImage] extracts, at these offsets
    clamped at 0, the window min(inW, outW) x min(inH, outH). *)
Theorem calculateCrop_offsets_and_window :
  (forall (inW inH outW outH : int) (g : Gravity),
      int_min <= inW - outW -> inW - outW + 1 <= int_max ->
      int_min <= inH - outH -> inH - outH + 1 <= int_max ->
      calculateCrop inW inH outW outH g = cropOffsets inW inH outW outH g)
  /\ (forall (image : VipsImage) (o : Options),
        Crop o = true ->
        0 <= Xsize image < 2 ^ 31 -> 0 <= Ysize image < 2 ^ 31 ->
        0 <= Width o <= int_max -> 0 <= Height o <= int_max ->
        let offsets :=
          cropOffsets (Xsize image) (Ysize image) (Width o) (Height o)
            (Gravity_ o) in
        extractOrEmbedImage (Some image) o
        = vipsExtract (Some image)
            (Z.max (fst offsets) 0) (Z.max (snd offsets) 0)
            (Z.min (Xsize image) (Width o))
            (Z.min (Ysize image) (Height o))).
Proof.
  assert (Hcrop : forall (inW inH outW outH : Z) (g : Gravity),
             int_min <= inW - outW -> inW - outW + 1 <= int_max ->
             int_min <= inH - outH -> inH - outH + 1 <= int_max ->
             calculateCrop inW inH outW outH g
             = cropOffsets inW inH outW outH g).
  { intros inW inH outW outH g Hw1 Hw2 Hh1 Hh2.
    unfold int_min, int_max in *.
    assert (Hq : forall z, - 2 ^ 63 <= z <= 2 ^ 63 - 1 ->
                           - 2 ^ 63 <= Z.quot z 2 <= 2 ^ 63 - 1).
    { intros z Hz. pose proof (Z.quot_rem z 2 ltac:(lia)) as Hqr.
      pose proof (Z.rem_bound_abs z 2 ltac:(lia)) as Hrb. lia. }
    unfold calculateCrop, cropOffsets, div, add, sub.
    rewrite !(wrap_small (inW - outW)), !(wrap_small (inH - outH))
      by (unfold int_min, int_max; lia).
    rewrite !(wrap_small (inW - outW + 1)), !(wrap_small (inH - outH + 1))
      by (unfold int_min, int_max; lia).
    rewrite !(wrap_small (Z.quot (inW - outW + 1) 2)),
      !(wrap_small (Z.quot (inH - outH + 1) 2))
      by (unfold int_min, int_max; apply Hq; lia).
    destruct g; reflexivity. }
  split; [exact Hcrop|].
  intros image o Hc Hx Hy Hw Hh offsets.
  unfold int_max in Hw, Hh.
  unfold extractOrEmbedImage. simpl. rewrite Hc.
  rewrite Hcrop by (unfold int_min, int_max; lia).
  fold offsets.
  assert (Hq : forall z, - 2 ^ 63 < z < 2 ^ 32 ->
                         - 2 ^ 64 < Z.quot z 2 < 2 ^ 53).
  { intros z Hz. pose proof (Z.quot_rem z 2 ltac:(lia)) as Hqr.
    pose proof (Z.rem_bound_abs z 2 ltac:(lia)) as Hrb. lia. }
  assert (Hoff : - 2 ^ 64 < fst offsets < 2 ^ 53
                 /\ - 2 ^ 64 < snd offsets < 2 ^ 53).
  { unfold offsets, cropOffsets.
    destruct (Gravity_ o); simpl fst; simpl snd; split;
      try apply Hq; lia. }
  rewrite !to_int_Max_zero by apply Hoff.
  rewrite !to_int_Min by lia.
  reflexivity.
Qed.

(** C9: on a JPEG source with a shrink of 2 and more, the shrink-on-load
    level is the largest of 2, 4 and 8 that is not above the shrink;
    the image is reloaded at that level, the factor is divided by it and
    raised to 1 at least, the shrink becomes the floor of that factor
    and the residual the shrink over the factor. *)
Theorem Resize_shrinkOnLoad_level (buf : list byte)
  (image : option VipsImage) (p : Plan) :
  2 <= shrink p ->
  exists level : Z,
    In level shrinkOnLoadLevels /\ level <= shrink p
    /\ (forall l, In l shrinkOnLoadLevels -> l <= shrink p -> l <= level)
    /\ level = (if 8 <=? shrink p then 8 else if 4 <=? shrink p then 4 else 2)
    /\ shrinkJpegImage buf image (factor p) (shrink p)
       = (tmpImage <- vipsShrinkJpeg buf image level ;;
          Ok (tmpImage, fdiv (factor p) (of_int level)))
    /\ Resize_shrinkOnLoad buf image JPEG p
       = (tmpImage <- vipsShrinkJpeg buf image level ;;
          let factor1 :=
            math_Max (fdiv (factor p) (of_int level)) (of_int 1) in
          let shrink1 := to_int (math_Floor factor1) in
          Ok (tmpImage,
              {| options := options p; factor := factor p;
                 shrink := shrink1;
                 residual := fdiv (of_int shrink1) factor1 |})).
Proof.
  intros Hs.
  assert (H2 : (2 <=? shrink p) = true) by (apply Z.leb_le; assumption).
  unfold Resize_shrinkOnLoad, shrinkJpegImage, shrinkOnLoadLevels.
  rewrite H2. simpl ImageType_eqb. simpl andb. cbv iota.
  assert (Hlv : forall level,
             In level [2; 4; 8] -> forall l, In l [2; 4; 8] ->
             l <= shrink p -> shrink p < 2 * level \/ level = 8 ->
             l <= level).
  { intros level [<-|[<-|[<-|[]]]] l [<-|[<-|[<-|[]]]]; lia. }
  destruct (Z.leb_spec 8 (shrink p)) as [H8|H8];
    [|destruct (Z.leb_spec 4 (shrink p)) as [H4|H4]].
  - exists 8. split; [simpl; tauto|]. split; [lia|].
    split; [intros l Hl Hle; apply Hlv; simpl; tauto|].
    split; [reflexivity|].
    split; simpl; destruct (vipsShrinkJpeg buf image 8); reflexivity.
  - exists 4. split; [simpl; tauto|]. split; [lia|].
    split; [intros l Hl Hle; apply Hlv; simpl; auto; lia|].
    split; [reflexivity|].
    split; simpl; destruct (vipsShrinkJpeg buf image 4); reflexivity.
  - exists 2. split; [simpl; tauto|]. split; [lia|].
    split; [intros l Hl Hle; apply Hlv; simpl; auto; lia|].
    split; [reflexivity|].
    split; simpl; destruct (vipsShrinkJpeg buf image 2); reflexivity.
Qed.

(** C10: [vipsImageType] returns on the empty buffer and on every buffer
    of 12 bytes and more; at every length from 1 to 11 there is a
    buffer, neither PNG nor JPEG, on which it indexes past the end; it
    does so on every buffer of one byte, so [Resize] panics there and
    does not return the "Unsupported image format" error. *)
Theorem vipsImageType_short_buffer_panics :
  (forall bytes : list byte,
      (List.length bytes = 0 \/ 12 <= List.length bytes)%nat ->
      exists t, vipsImageType bytes = Ok t)
  /\ (forall n : nat,
        (1 <= n <= 11)%nat ->
        vipsImageType (firstn n panickingPrefix) = Panic)
  /\ (forall b : byte, vipsImageType [b] = Panic)
  /\ (forall (b : byte) (o : Options), Resize [b] o = Panic).
Proof.
  assert (Hone : forall b : byte, vipsImageType [b] = Panic).
  { intros b. unfold vipsImageType, byte_is, index. simpl.
    destruct (Byte.eqb b x89); simpl; [reflexivity|].
    destruct (Byte.eqb b xff); reflexivity. }
  repeat apply conj.
  2: { intros n Hn.
       do 12 (destruct n as [|n]; [try reflexivity; lia|]). lia. }
  - intros bytes [H0|H12].
    + destruct bytes; [|discriminate]. exists UNKNOWN. reflexivity.
    + do 12 (destruct bytes as [|? bytes]; [simpl in H12; lia|]).
      unfold vipsImageType, readImageType, byte_is, index.
      cbn [List.length Nat.eqb nth_error bind andM orM].
      repeat match goal with
             | |- context [Byte.eqb ?a ?c] =>
                 destruct (Byte.eqb a c); cbn [bind andM orM]
             end;
        try (destruct HasMagickSupport; cbn [bind];
             try destruct (HasSuffix _ _)); eauto.
  - exact Hone.
  - intros b o. unfold Resize, vipsRead. rewrite Hone. reflexivity.
Qed.

End Claims.

(** ** The theorems at sample inputs *)

Lemma Resize_no_enlarge_guard_witness :
  unscaled (Resize_geometry (T:=amd64) (V:=stubEngine) cropBox400 100 100)
    100 100.
Proof.
  apply (proj1 (Resize_no_enlarge_guard (T:=amd64) (V:=stubEngine)
                  cropBox400 100 100 eq_refl eq_refl
                  ltac:(simpl; lia) ltac:(simpl; lia))
           (or_introl eq_refl)).
Defined.

(** The 100x100 input of the specification, asked for 400x400 with
    enlarge and force unset: force is set by normalization and the plan
    keeps the 400x400 target. *)
Lemma Resize_geometry_box400_not_unscaled :
  let p := Resize_geometry (T:=amd64) (V:=stubEngine) box400 100 100 in
  Enlarge box400 = false /\ Force box400 = false
  /\ 100 < Width box400 /\ 100 < Height box400
  /\ Force (options p) = true
  /\ Width (options p) = 400 /\ Height (options p) = 400
  /\ ~ unscaled p 100 100.
Proof.
  repeat split; try reflexivity.
  intros [Hw _]. vm_compute in Hw. discriminate Hw.
Qed.

Lemma extractOrEmbedImage_unset_AreaWidth_witness :
  extractOrEmbedImage (T:=amd64) (V:=stubEngine) (Some (800, 600, 0))
    top1Box100
  = Err "Extract area width/height params are required".
Proof.
  apply (extractOrEmbedImage_unset_AreaWidth (T:=amd64) (V:=stubEngine)
           (800, 600, 0) top1Box100 eq_refl eq_refl).
  - left. simpl. lia.
  - reflexivity.
Defined.

Lemma normalizeOperation_effective_mode_witness :
  Force (normalizeOperation (set_Width 100 zeroOptions) 800 600) = true
  /\ effectiveModes (set_Width 100 zeroOptions) 800 600
     = (true, false, false).
Proof.
  apply (proj1 (proj2 (normalizeOperation_effective_mode
                         (set_Width 100 zeroOptions) 800 600)));
    try reflexivity.
  left. simpl. lia.
Defined.

(** Width 100 with enlarge and no mode: no dimension is missing, and
    none of force, crop and embed is effective. *)
Lemma normalizeOperation_enlarge_no_mode :
  0 < Width enlargeWidth100
  /\ Force enlargeWidth100 = false /\ Crop enlargeWidth100 = false
  /\ Embed enlargeWidth100 = false
  /\ Force (normalizeOperation enlargeWidth100 800 600) = false
  /\ exactlyOne (effectiveModes enlargeWidth100 800 600) = false.
Proof. repeat split; reflexivity. Qed.

Lemma imageCalculations_cases_witness :
  imageCalculations (T:=amd64) (set_Width 400 zeroOptions) 800 600
  = (set_Height 300 (set_Width 400 zeroOptions), of_int 2).
Proof.
  apply (proj1 (proj2 (imageCalculations_cases (T:=amd64)
                         (set_Width 400 zeroOptions) 800 600)));
    simpl; lia.
Defined.

Lemma calculateShrink_clamped_witness :
  calculateShrink (T:=amd64) (V:=stubEngine) (of_int 8) 0 = Z.max 6 1
  /\ 1 <= calculateShrink (T:=amd64) (V:=stubEngine) (of_int 8) 0.
Proof.
  apply (proj1 (proj2 (calculateShrink_clamped (T:=amd64) (V:=stubEngine)
                         (of_int 8) 0)) 6).
  - reflexivity.
  - unfold int_max. lia.
Defined.

Lemma calculateCrop_offsets_and_window_witness :
  extractOrEmbedImage (T:=amd64) (V:=stubEngine) (Some (800, 600, 0))
    cropBox100
  = vipsExtract (V:=stubEngine) (Some (800, 600, 0)) 350 250 100 100.
Proof.
  apply (proj2 (calculateCrop_offsets_and_window (T:=amd64) (V:=stubEngine))
           (800, 600, 0) cropBox100 eq_refl);
    simpl; unfold int_max; lia.
Defined.

Lemma getAngle_floor90_cap270_witness :
  getAngle (T:=amd64) 370 = Z.min (90 * (370 / 90)) 270.
Proof.
  apply (proj1 (proj1 (getAngle_floor90_cap270 (T:=amd64)) 370
                  ltac:(unfold int_max; lia))).
Defined.

Lemma Resize_shrinkOnLoad_level_witness :
  exists level : Z,
    In level shrinkOnLoadLevels /\ level <= 5
    /\ Resize_shrinkOnLoad (T:=amd64) (V:=stubEngine) [xff; xd8; xff]
         (Some (100, 100, 0)) JPEG planShrink5
       = (tmpImage <- vipsShrinkJpeg (V:=stubEngine) [xff; xd8; xff]
                        (Some (100, 100, 0)) level ;;
          let factor1 := math_Max (fdiv (of_int 5) (of_int level)) (of_int 1) in
          let shrink1 := to_int (T:=amd64) (math_Floor factor1) in
          Ok (tmpImage,
              {| options := zeroOptions; factor := of_int 5;
                 shrink := shrink1;
                 residual := fdiv (of_int shrink1) factor1 |})).
Proof.
  destruct (Resize_shrinkOnLoad_level (T:=amd64) (V:=stubEngine)
              [xff; xd8; xff] (Some (100, 100, 0)) planShrink5
              ltac:(simpl; lia))
    as (level & Hin & Hle & _ & _ & _ & Hr).
  exists level. split; [exact Hin|]. split; [exact Hle|]. exact Hr.
Defined.

Lemma vipsImageType_short_buffer_panics_witness :
  exists t, vipsImageType (V:=stubEngine) webpHeader = Ok t.
Proof.
  apply (proj1 (vipsImageType_short_buffer_panics (T:=amd64)
                  (V:=stubEngine)) webpHeader).
  right. simpl. lia.
Defined.
